(** * Markdown2HTML: a verified model of [markdown2html.py]

    The script reads a Markdown file as a list of lines and threads it through
    four line rewriters (headings, unordered lists, ordered lists,
    paragraphs) before writing the result.  This development embeds the four
    rewriters and [main] and proves the properties the specification states
    about them.

    Characters are code points below 256 ([ascii]); every pattern the script
    looks for is ASCII.  A line is a [string], the text of a file a
    [string] that [readlines] cuts into a [list string]. *)

From Stdlib Require Import String Ascii List Bool Arith Lia DecimalString.
Import ListNotations.

Open Scope string_scope.
Open Scope list_scope.

(** String concatenation, kept apart from list concatenation. *)
Infix "+++" := String.append (right associativity, at level 60).

(* ================================================================== *)
(** * Python string primitives *)
(* ================================================================== *)

Module Py.

(** The line feed, written ["\n"] in the source. *)
Definition LF : ascii := ascii_of_nat 10.
Definition nl : string := String LF EmptyString.

(** [str.isspace] on one code point below 256. *)
Definition isspace (c : ascii) : bool :=
  let n := nat_of_ascii c in
  (((9 <=? n) && (n <=? 13)) || ((28 <=? n) && (n <=? 32))
   || (n =? 133) || (n =? 160))%nat.

(** [s.startswith(p)]. *)
Fixpoint startswith (p s : string) : bool :=
  match p, s with
  | EmptyString, _ => true
  | String _ _, EmptyString => false
  | String c p', String d s' => Ascii.eqb c d && startswith p' s'
  end.

(** [s.startswith((p1, p2, ...))]. *)
Definition startswith_any (ps : list string) (s : string) : bool :=
  existsb (fun p => startswith p s) ps.

(** [s[n:]]. *)
Fixpoint slice_from (n : nat) (s : string) : string :=
  match n, s with
  | O, _ => s
  | S _, EmptyString => EmptyString
  | S k, String _ s' => slice_from k s'
  end.

(** [p * n]. *)
Fixpoint str_mul (p : string) (n : nat) : string :=
  match n with
  | O => EmptyString
  | S k => p +++ str_mul p k
  end.

(** [s.lstrip()], [s.rstrip()] and [s.strip()]. *)
Fixpoint lstrip (s : string) : string :=
  match s with
  | EmptyString => EmptyString
  | String c s' => if isspace c then lstrip s' else s
  end.

Fixpoint rstrip (s : string) : string :=
  match s with
  | EmptyString => EmptyString
  | String c s' =>
      match rstrip s' with
      | EmptyString => if isspace c then EmptyString else String c EmptyString
      | r => String c r
      end
  end.

Definition strip (s : string) : string := rstrip (lstrip s).

(** [s.replace(old, new)] for a non-empty [old]: the occurrences of [old] are
    found from the left and do not overlap.  [skip] counts the characters of
    a matched occurrence that are still to be dropped. *)
Fixpoint replace_from (old new : string) (skip : nat) (s : string) : string :=
  match s with
  | EmptyString => EmptyString
  | String c s' =>
      match skip with
      | S k => replace_from old new k s'
      | O =>
          if startswith old s
          then new +++ replace_from old new (String.length old - 1) s'
          else String c (replace_from old new 0 s')
      end
  end.

Definition replace (old new s : string) : string := replace_from old new 0 s.

(** [f"{i}"] for a non-negative integer. *)
Definition str_of_int (i : nat) : string :=
  NilEmpty.string_of_uint (Nat.to_uint i).

(** [f.readlines()] on the text of a file: the lines, each with its line
    feed, the last one with none when the text does not end in one. *)
Fixpoint readlines (text : string) : list string :=
  match text with
  | EmptyString => []
  | String c rest =>
      if Ascii.eqb c LF then nl :: readlines rest
      else match readlines rest with
           | [] => [String c EmptyString]
           | line :: lines => String c line :: lines
           end
  end.

(** The text [f.writelines(lines)] writes: the lines one after another. *)
Fixpoint writelines (lines : list string) : string :=
  match lines with
  | [] => EmptyString
  | line :: rest => line +++ writelines rest
  end.

(** Truthiness of a string: non-empty. *)
Definition truthy (s : string) : bool :=
  match s with
  | EmptyString => false
  | String _ _ => true
  end.

End Py.

(* ================================================================== *)
(** * Stage 1: headings *)
(* ================================================================== *)

(** [range(6, 0, -1)]. *)
Definition heading_levels : list nat := [6; 5; 4; 3; 2; 1].

(** The rewritten line [f"<h{i}>{line[i+1:].strip()}</h{i}>\n"]. *)
Definition heading_tag (i : nat) (line : string) : string :=
  "<h" +++ Py.str_of_int i +++ ">" +++ Py.strip (Py.slice_from (i + 1) line)
  +++ "</h" +++ Py.str_of_int i +++ ">" +++ Py.nl.

(** The inner loop over the levels, with its [break]. *)
Fixpoint heading_loop (levels : list nat) (line : string) : string :=
  match levels with
  | [] => line
  | i :: rest =>
      if Py.startswith (Py.str_mul "#" i +++ " ") line
      then heading_tag i line
      else heading_loop rest line
  end.

Definition convert_markdown_heading_to_html (lines : list string) : list string :=
  fold_left (fun converted_lines line =>
               converted_lines ++ [heading_loop heading_levels line])
            lines [].

(* ================================================================== *)
(** * Stages 2 and 3: unordered and ordered lists *)
(* ================================================================== *)

Definition UL_OPEN : string := "<ul>" +++ Py.nl.
Definition UL_CLOSE : string := "</ul>" +++ Py.nl.
Definition OL_OPEN : string := "<ol>" +++ Py.nl.
Definition OL_CLOSE : string := "</ol>" +++ Py.nl.

(** [f"   <li>{line_content}</li>\n"]. *)
Definition li_tag (line_content : string) : string :=
  "   <li>" +++ line_content +++ "</li>" +++ Py.nl.

(** The loop state of both list rewriters: [(in_list, html_lines)]. *)
Definition list_state : Type := bool * list string.

(** One iteration of the loop of [convert_markdown_ul_list_to_html]. *)
Definition ul_step (st : list_state) (line : string) : list_state :=
  let '(in_list, html_lines) := st in
  if Py.startswith "- " line then
    let line_content := Py.strip (Py.slice_from 2 line) in
    let '(in_list, html_lines) :=
      if negb in_list then (true, html_lines ++ [UL_OPEN])
      else (in_list, html_lines) in
    (in_list, html_lines ++ [li_tag line_content])
  else
    let '(in_list, html_lines) :=
      if in_list then (false, html_lines ++ [UL_CLOSE])
      else (in_list, html_lines) in
    (in_list, html_lines ++ [line]).

Definition convert_markdown_ul_list_to_html (lines : list string) : list string :=
  let '(in_list, html_lines) := fold_left ul_step lines (false, []) in
  if in_list then html_lines ++ [UL_CLOSE] else html_lines.

(** One iteration of the loop of [convert_markdown_ol_list_to_html]. *)
Definition ol_step (st : list_state) (line : string) : list_state :=
  let '(in_list, html_lines) := st in
  if Py.startswith "* " line then
    let line_content := Py.strip (Py.slice_from 2 line) in
    let '(in_list, html_lines) :=
      if negb in_list then (true, html_lines ++ [OL_OPEN])
      else (in_list, html_lines) in
    (in_list, html_lines ++ [li_tag line_content])
  else
    let '(in_list, html_lines) :=
      if in_list then (false, html_lines ++ [OL_CLOSE])
      else (in_list, html_lines) in
    (in_list, html_lines ++ [line]).

Definition convert_markdown_ol_list_to_html (lines : list string) : list string :=
  let '(in_list, html_lines) := fold_left ol_step lines (false, []) in
  if in_list then html_lines ++ [OL_CLOSE] else html_lines.

(* ================================================================== *)
(** * Stage 4: paragraphs *)
(* ================================================================== *)

Definition P_OPEN : string := "<p>" +++ Py.nl.
Definition P_CLOSE : string := "</p>" +++ Py.nl.
Definition BR : string := "<br/>".
Definition BR_NL : string := BR +++ Py.nl.

(** [f"    {stripped_line}<br/>\n"]. *)
Definition p_line (stripped_line : string) : string :=
  "    " +++ stripped_line +++ BR_NL.

(** [s.replace("<br/>\n", "\n")]. *)
Definition drop_br (s : string) : string := Py.replace BR_NL Py.nl s.

(** The test of the loop:
    [stripped_line and not stripped_line.startswith(("#", "-", "*"))]. *)
Definition is_plain (line : string) : bool :=
  let stripped_line := Py.strip line in
  Py.truthy stripped_line
  && negb (Py.startswith_any ["#"; "-"; "*"] stripped_line).

(** [html_lines[-1] = f(html_lines[-1])]; Python raises [IndexError] on an
    empty list, which is [None] here. *)
Definition update_last (f : string -> string) (html_lines : list string)
  : option (list string) :=
  match rev html_lines with
  | [] => None
  | x :: r => Some (rev r ++ [f x])
  end.

(** A computation that may raise. *)
Definition bind {A B : Type} (m : option A) (k : A -> option B) : option B :=
  match m with
  | Some a => k a
  | None => None
  end.

Notation "x <- m ;; k" := (bind m (fun x => k))
  (at level 61, m at next level, right associativity).

(** Closing a paragraph: drop the break of the last line, append [</p>]. *)
Definition close_paragraph (html_lines : list string) : option (list string) :=
  html_lines <- update_last drop_br html_lines ;;
  Some (html_lines ++ [P_CLOSE]).

(** The loop state of the paragraph rewriter: [(in_paragraph, html_lines)]. *)
Definition para_state : Type := bool * list string.

(** One iteration of the loop of [convert_markdown_paragraph_to_html]. *)
Definition para_step (st : para_state) (line : string) : option para_state :=
  let '(in_paragraph, html_lines) := st in
  let stripped_line := Py.strip line in
  if is_plain line then
    let '(in_paragraph, html_lines) :=
      if negb in_paragraph then (true, html_lines ++ [P_OPEN])
      else (in_paragraph, html_lines) in
    Some (in_paragraph, html_lines ++ [p_line stripped_line])
  else
    if in_paragraph then
      html_lines <- close_paragraph html_lines ;;
      Some (false, html_lines ++ [line])
    else Some (in_paragraph, html_lines ++ [line]).

(** The loop itself: it stops at the first iteration that raises. *)
Fixpoint para_loop (lines : list string) (st : para_state) : option para_state :=
  match lines with
  | [] => Some st
  | line :: rest => st <- para_step st line ;; para_loop rest st
  end.

Definition convert_markdown_paragraph_to_html (lines : list string)
  : option (list string) :=
  st <- para_loop lines (false, []) ;;
  let '(in_paragraph, html_lines) := st in
  if in_paragraph then close_paragraph html_lines else Some html_lines.

(* ================================================================== *)
(** * The pipeline and [main] *)
(* ================================================================== *)

(** The four conversions in the order [main] applies them. *)
Definition convert (lines : list string) : option (list string) :=
  let converted_lines := convert_markdown_heading_to_html lines in
  let converted_lines := convert_markdown_ul_list_to_html converted_lines in
  let converted_lines := convert_markdown_ol_list_to_html converted_lines in
  convert_markdown_paragraph_to_html converted_lines.

(** How a run of the script ends: [exit(n)], or an exception nobody
    catches. *)
Inductive termination : Type :=
| Exit (code : nat)
| Uncaught.

(** What a run leaves behind: how it ended, what it printed on the error
    stream, and the file system. *)
Record run (world : Type) : Type := mkRun {
  run_end : termination;
  run_stderr : list string;
  run_world : world
}.
Arguments mkRun {world}.
Arguments run_end {world}.
Arguments run_stderr {world}.
Arguments run_world {world}.

Definition USAGE : string := "Usage: ./markdown2html.py README.md README.html".

Section Main.

(** The operating system is a collaborator of the script: its file system is
    a [world], on which the script checks a path, reads the text of a file
    and writes a text to a file.  Reading may raise; writing yields the new
    file system and whether it went through. *)
Variable world : Type.
Variable path_exists : world -> string -> bool.
Variable read_text : world -> string -> option string.
Variable write_text : world -> string -> string -> world * bool.

(** [main()], with [sys.argv] and the file system it starts from.
    [print(s, file=sys.stderr)] appends [s] and a line feed to the error
    stream; [run_stderr] is what the script itself prints there. *)
Definition main (argv : list string) (w : world) : run world :=
  if (List.length argv <? 3)%nat then
    mkRun (Exit 1) [USAGE +++ Py.nl] w
  else
    match nth_error argv 1, nth_error argv 2 with
    | Some markdown_file, Some html_file =>
        if negb (path_exists w markdown_file) then
          mkRun (Exit 1) [("Missing " +++ markdown_file) +++ Py.nl] w
        else
          match read_text w markdown_file with
          | None => mkRun Uncaught [] w
          | Some text =>
              let lines := Py.readlines text in
              match convert lines with
              | None => mkRun Uncaught [] w
              | Some converted_lines =>
                  let '(w', ok) :=
                    write_text w html_file (Py.writelines converted_lines) in
                  if ok then mkRun (Exit 0) [] w'
                  else mkRun Uncaught [] w'
              end
          end
    | _, _ => mkRun Uncaught [] w
    end.

End Main.

Arguments main {world}.

(** A file system in memory: paths with the texts of their files, every file
    readable and every path writable. *)
Definition mem_fs : Type := list (string * string).

Fixpoint mem_lookup (fs : mem_fs) (path : string) : option string :=
  match fs with
  | [] => None
  | (p, text) :: rest => if String.eqb p path then Some text else mem_lookup rest path
  end.

Definition mem_exists (fs : mem_fs) (path : string) : bool :=
  match mem_lookup fs path with
  | Some _ => true
  | None => false
  end.

Definition mem_write (fs : mem_fs) (path : string) (text : string)
  : mem_fs * bool :=
  ((path, text) :: fs, true).

Definition mem_main : list string -> mem_fs -> run mem_fs :=
  main mem_exists mem_lookup mem_write.

(* ================================================================== *)
(** * The rewriters as state machines *)
(* ================================================================== *)

(** The list grouper as the specification words it: one flag "inside a
    block", a marker prefix and a pair of container markers.  A line with the
    prefix opens a block when none is open and is emitted as an item; any
    other line closes an open block and is emitted as it is; the end of the
    input closes an open block. *)
Section Grouper.

Variables marker open_marker close_marker : string.

Definition item_of (line : string) : string :=
  li_tag (Py.strip (Py.slice_from (String.length marker) line)).

Fixpoint list_grouper_from (in_block : bool) (lines : list string) : list string :=
  match lines with
  | [] => if in_block then [close_marker] else []
  | line :: rest =>
      if Py.startswith marker line
      then (if in_block then [] else [open_marker])
           ++ item_of line :: list_grouper_from true rest
      else (if in_block then [close_marker] else [])
           ++ line :: list_grouper_from false rest
  end.

Definition list_grouper (lines : list string) : list string :=
  list_grouper_from false lines.

End Grouper.

(** What a list grouper emits, told apart by origin: a container marker of
    its own, an item made from an input line, or an input line passed on. *)
Inductive emitted : Type :=
| Opening
| Item (line : string)
| Closing
| Passed (line : string).

Definition render (marker open_marker close_marker : string) (e : emitted) : string :=
  match e with
  | Opening => open_marker
  | Item line => item_of marker line
  | Closing => close_marker
  | Passed line => line
  end.

(** The input line an emitted line comes from, if any. *)
Definition origin (e : emitted) : list string :=
  match e with
  | Item line | Passed line => [line]
  | Opening | Closing => []
  end.

(** An item comes from a line with the marker, a passed line has none. *)
Definition classified (marker : string) (e : emitted) : bool :=
  match e with
  | Item line => Py.startswith marker line
  | Passed line => negb (Py.startswith marker line)
  | Opening | Closing => true
  end.

(** Containers are balanced: an opening marker comes outside any block and
    is followed by an item; items come inside a block; a closing marker
    comes inside a block, ends it, and is not followed by an opening;
    passed lines come outside; the output ends outside. *)
Fixpoint balanced (inside : bool) (es : list emitted) : bool :=
  match es with
  | [] => negb inside
  | Opening :: rest =>
      negb inside
      && match rest with Item _ :: _ => true | _ => false end
      && balanced true rest
  | Item _ :: rest => inside && balanced true rest
  | Closing :: rest =>
      inside
      && match rest with Opening :: _ => false | _ => true end
      && balanced false rest
  | Passed _ :: rest => negb inside && balanced false rest
  end.

(** The emitted lines of a list grouper, by origin. *)
Fixpoint trace_from (marker : string) (in_block : bool) (lines : list string)
  : list emitted :=
  match lines with
  | [] => if in_block then [Closing] else []
  | line :: rest =>
      if Py.startswith marker line
      then (if in_block then [] else [Opening])
           ++ Item line :: trace_from marker true rest
      else (if in_block then [Closing] else [])
           ++ Passed line :: trace_from marker false rest
    end.

(** The content line of a plain input line, break appended. *)
Definition p_content (line : string) : string := p_line (Py.strip line).

(** The paragraph grouper by recursion on the input.  [pending] is the last
    content line of an open paragraph: it is emitted as it is when the
    paragraph goes on, and without its break when the paragraph closes. *)
Fixpoint para_from (pending : option string) (lines : list string) : list string :=
  match lines with
  | [] =>
      match pending with
      | Some c => [drop_br c; P_CLOSE]
      | None => []
      end
  | line :: rest =>
      if is_plain line
      then match pending with Some c => c | None => P_OPEN end
           :: para_from (Some (p_content line)) rest
      else match pending with
           | Some c => [drop_br c; P_CLOSE]
           | None => []
           end ++ line :: para_from None rest
  end.

(** What closing the paragraph of a pending line emits. *)
Definition para_closing (pending : option string) : list string :=
  match pending with
  | Some c => [drop_br c; P_CLOSE]
  | None => []
  end.

(** The content lines of one paragraph: every line of the run with its
    break, the last one with the break dropped. *)
Fixpoint block_lines (run : list string) : list string :=
  match run with
  | [] => []
  | l :: rest =>
      match rest with
      | [] => [drop_br (p_content l)]
      | _ :: _ => p_content l :: block_lines rest
      end
  end.

(** The loop state that goes with a pending line. *)
Definition para_state_of (pending : option string) (emitted_lines : list string)
  : para_state :=
  match pending with
  | Some c => (true, emitted_lines ++ [c])
  | None => (false, emitted_lines)
  end.

(** The end of [convert_markdown_paragraph_to_html], after the loop. *)
Definition para_finish (st : para_state) : option (list string) :=
  let '(in_paragraph, html_lines) := st in
  if in_paragraph then close_paragraph html_lines else Some html_lines.

(** [s] ends with [suffix]. *)
Definition ends_with (suffix s : string) : Prop := exists x, s = x +++ suffix.

(** [s] has no line feed. *)
Fixpoint no_lf (s : string) : bool :=
  match s with
  | EmptyString => true
  | String c s' => negb (Ascii.eqb c Py.LF) && no_lf s'
  end.

(** [s] has no line feed but, possibly, its last character: the shape of a
    line that [readlines] yields. *)
Fixpoint lf_only_last (s : string) : bool :=
  match s with
  | EmptyString => true
  | String c s' =>
      match s' with
      | EmptyString => true
      | String _ _ => negb (Ascii.eqb c Py.LF) && lf_only_last s'
      end
  end.

(** The lines that reach the paragraph stage. *)
Definition before_paragraphs (lines : list string) : list string :=
  convert_markdown_ol_list_to_html
    (convert_markdown_ul_list_to_html
       (convert_markdown_heading_to_html lines)).

(** A line that is a tag once stripped. *)
Definition is_tag_line (line : string) : bool := Py.startswith "<" (Py.strip line).

(** A line no heading level matches. *)
Definition no_heading (line : string) : Prop :=
  forall i, In i heading_levels ->
            Py.startswith (Py.str_mul "#" i +++ " ") line = false.

(** Where the two list groupers, run one after the other, stand: outside any
    list, inside an unordered one, inside an ordered one. *)
Inductive block : Type :=
| Outside
| InUl
| InOl.

Definition close_block (st : block) : list string :=
  match st with
  | Outside => []
  | InUl => [UL_CLOSE]
  | InOl => [OL_CLOSE]
  end.

(** The flag of each grouper at a stand of the pair. *)
Definition in_ul (st : block) : bool :=
  match st with InUl => true | _ => false end.

Definition in_ol (st : block) : bool :=
  match st with InOl => true | _ => false end.

(** The two list groupers as one pass over the input. *)
Fixpoint both_groupers_from (st : block) (lines : list string) : list string :=
  match lines with
  | [] => close_block st
  | line :: rest =>
      if Py.startswith "- " line
      then match st with InUl => [] | _ => close_block st ++ [UL_OPEN] end
           ++ item_of "- " line :: both_groupers_from InUl rest
      else if Py.startswith "* " line
      then match st with InOl => [] | _ => close_block st ++ [OL_OPEN] end
           ++ item_of "* " line :: both_groupers_from InOl rest
      else close_block st ++ line :: both_groupers_from Outside rest
  end.

(** A line none of the first three stages matches. *)
Definition unmarked (line : string) : bool :=
  forallb (fun i => negb (Py.startswith (Py.str_mul "#" i +++ " ") line))
          heading_levels
  && negb (Py.startswith "- " line)
  && negb (Py.startswith "* " line).

(** The emitted lines of the paragraph grouper, by origin. *)
Fixpoint para_trace (in_paragraph : bool) (lines : list string) : list emitted :=
  match lines with
  | [] => if in_paragraph then [Closing] else []
  | line :: rest =>
      if is_plain line
      then (if in_paragraph then [] else [Opening])
           ++ Item line :: para_trace true rest
      else (if in_paragraph then [Closing] else [])
           ++ Passed line :: para_trace false rest
  end.

(** The lines of a paragraph trace: a content line keeps its break unless
    the closing marker follows it. *)
Fixpoint render_paragraphs (es : list emitted) : list string :=
  match es with
  | [] => []
  | Opening :: rest => P_OPEN :: render_paragraphs rest
  | Closing :: rest => P_CLOSE :: render_paragraphs rest
  | Passed line :: rest => line :: render_paragraphs rest
  | Item line :: rest =>
      match rest with
      | Closing :: _ => drop_br (p_content line)
      | _ => p_content line
      end :: render_paragraphs rest
  end.

(** An item comes from a plain line, a passed line is not plain. *)
Definition para_classified (e : emitted) : bool :=
  match e with
  | Item line => is_plain line
  | Passed line => negb (is_plain line)
  | Opening | Closing => true
  end.

(** A line that ends in its one line feed. *)
Fixpoint terminated (s : string) : bool :=
  match s with
  | EmptyString => false
  | String c s' =>
      match s' with
      | EmptyString => Ascii.eqb c Py.LF
      | String _ _ => negb (Ascii.eqb c Py.LF) && terminated s'
      end
  end.

(** A line of a file: not empty, no line feed but possibly the last
    character. *)
Definition line_shaped (s : string) : bool := Py.truthy s && lf_only_last s.

(** The lines of a file: every line ends in its one line feed, but the last
    one, which may have none. *)
Fixpoint file_shaped (lines : list string) : bool :=
  match lines with
  | [] => true
  | l :: rest =>
      match rest with
      | [] => line_shaped l
      | _ :: _ => terminated l && file_shaped rest
      end
  end.

(** A file system where every path exists and no file can be read. *)
Definition unreadable_exists (w : unit) (path : string) : bool := true.
Definition unreadable_read (w : unit) (path : string) : option string := None.
Definition unreadable_write (w : unit) (path text : string) : unit * bool := (tt, true).

(* ================================================================== *)
(** * Theorems *)
(* ================================================================== *)

Example heading_h3 :
  convert_markdown_heading_to_html ["### Title" +++ Py.nl] = ["<h3>Title</h3>" +++ Py.nl].
Proof. reflexivity. Qed.

Example ul_example :
  convert_markdown_ul_list_to_html ["- a" +++ Py.nl; "- b" +++ Py.nl; "x" +++ Py.nl]
  = [UL_OPEN; li_tag "a"; li_tag "b"; UL_CLOSE; "x" +++ Py.nl].
Proof. reflexivity. Qed.

Example para_example :
  convert_markdown_paragraph_to_html ["line1" +++ Py.nl; "line2" +++ Py.nl; Py.nl]
  = Some [P_OPEN; "    line1<br/>" +++ Py.nl; "    line2" +++ Py.nl; P_CLOSE; Py.nl].
Proof. reflexivity. Qed.

Example para_br_text :
  convert_markdown_paragraph_to_html ["x<br/>" +++ Py.nl]
  = Some [P_OPEN; "    x<br/>" +++ Py.nl; P_CLOSE].
Proof. reflexivity. Qed.

(* ------------------------------------------------------------------ *)
(** ** Strings *)
(* ------------------------------------------------------------------ *)

Lemma append_assoc (a b c : string) : (a +++ b) +++ c = a +++ b +++ c.
Proof. induction a as [|x a IH]; simpl; [reflexivity | now rewrite IH]. Qed.

Lemma length_append (a b : string) :
  String.length (a +++ b) = String.length a + String.length b.
Proof. induction a as [|x a IH]; simpl; [reflexivity | now rewrite IH]. Qed.

Lemma startswith_iff (p s : string) :
  Py.startswith p s = true <-> exists rest, s = p +++ rest.
Proof.
  revert s. induction p as [|c p IH]; intros s; simpl.
  - split; [intros _; now exists s | reflexivity].
  - destruct s as [|d s].
    + split; [discriminate | intros [rest H]; discriminate].
    + rewrite andb_true_iff, Ascii.eqb_eq, IH. split.
      * intros [-> [rest ->]]. now exists rest.
      * intros [rest H]. injection H as -> ->. split; [reflexivity | now exists rest].
Qed.

Lemma startswith_append (p rest : string) : Py.startswith p (p +++ rest) = true.
Proof. apply startswith_iff. now exists rest. Qed.

Lemma slice_from_append (p rest : string) :
  Py.slice_from (String.length p) (p +++ rest) = rest.
Proof. induction p as [|c p IH]; simpl; [now destruct rest | exact IH]. Qed.

(* ------------------------------------------------------------------ *)
(** ** Stage 1: headings *)
(* ------------------------------------------------------------------ *)

Lemma heading_fold (lines acc : list string) :
  fold_left (fun converted_lines line =>
               converted_lines ++ [heading_loop heading_levels line])
            lines acc
  = acc ++ map (heading_loop heading_levels) lines.
Proof.
  revert acc. induction lines as [|l lines IH]; intros acc; simpl.
  - now rewrite app_nil_r.
  - rewrite IH, <- app_assoc. reflexivity.
Qed.

Lemma heading_map (lines : list string) :
  convert_markdown_heading_to_html lines = map (heading_loop heading_levels) lines.
Proof. unfold convert_markdown_heading_to_html. now rewrite heading_fold. Qed.

Lemma heading_loop_match (i : nat) (rest : string) :
  1 <= i <= 6 ->
  heading_loop heading_levels (Py.str_mul "#" i +++ " " +++ rest)
  = "<h" +++ Py.str_of_int i +++ ">" +++ Py.strip rest
    +++ "</h" +++ Py.str_of_int i +++ ">" +++ Py.nl.
Proof.
  intros Hi.
  assert (i = 1 \/ i = 2 \/ i = 3 \/ i = 4 \/ i = 5 \/ i = 6) as Hc by lia.
  destruct Hc as [->|[->|[->|[->|[->| ->]]]]]; reflexivity.
Qed.

Lemma heading_loop_nomatch (levels : list nat) (line : string) :
  (forall i, In i levels -> Py.startswith (Py.str_mul "#" i +++ " ") line = false) ->
  heading_loop levels line = line.
Proof.
  induction levels as [|i levels IH]; intros H; simpl; [reflexivity|].
  rewrite (H i (or_introl eq_refl)). apply IH.
  intros j Hj. apply H. now right.
Qed.

Lemma heading_loop_cases (levels : list nat) (line : string) :
  (exists i, In i levels
             /\ Py.startswith (Py.str_mul "#" i +++ " ") line = true
             /\ heading_loop levels line = heading_tag i line)
  \/ ((forall i, In i levels ->
                 Py.startswith (Py.str_mul "#" i +++ " ") line = false)
      /\ heading_loop levels line = line).
Proof.
  induction levels as [|j levels IH]; simpl.
  - right. split; [intros i [] | reflexivity].
  - destruct (Py.startswith (Py.str_mul "#" j +++ " ") line) eqn:E.
    + left. exists j. repeat split; [now left | exact E].
    + destruct IH as [[i [Hi [Hm Ht]]] | [Hno Hl]].
      * left. exists i. repeat split; [now right | exact Hm | exact Ht].
      * right. split; [|exact Hl].
        intros i [<- | Hi]; [exact E | now apply Hno].
Qed.

Lemma heading_line_cases (line : string) :
  (exists i rest,
      1 <= i <= 6
      /\ line = Py.str_mul "#" i +++ " " +++ rest
      /\ heading_loop heading_levels line
         = "<h" +++ Py.str_of_int i +++ ">" +++ Py.strip rest
           +++ "</h" +++ Py.str_of_int i +++ ">" +++ Py.nl)
  \/ ((forall i rest, 1 <= i <= 6 -> line <> Py.str_mul "#" i +++ " " +++ rest)
      /\ heading_loop heading_levels line = line).
Proof.
  destruct (heading_loop_cases heading_levels line)
    as [[i [Hi [Hm _]]] | [Hno Hl]].
  - left. apply startswith_iff in Hm. destruct Hm as [rest Hm].
    rewrite append_assoc in Hm.
    assert (1 <= i <= 6) as Hr by (unfold heading_levels in Hi; simpl in Hi; lia).
    exists i, rest. repeat split; try lia; [exact Hm|].
    rewrite Hm. now apply heading_loop_match.
  - right. split; [|exact Hl].
    intros i rest Hi ->.
    assert (In i heading_levels) as Hin by (unfold heading_levels; simpl; lia).
    specialize (Hno i Hin).
    rewrite <- append_assoc, startswith_append in Hno. discriminate.
Qed.

(** C1.  The heading rewriter maps every line on its own; a line that is
    [i] hashes (1 to 6), one space and a remainder becomes the tag of level
    [i] around the stripped remainder, ended by a line feed; a line of any
    other shape is returned as it is; every line is of one kind or the
    other.  ["### Title\n"] becomes
    ["<h3>Title</h3>\n"] and a line of seven hashes is left alone. *)
Theorem heading_rewriter_spec (lines : list string) :
  convert_markdown_heading_to_html lines = map (heading_loop heading_levels) lines
  /\ (forall i rest, 1 <= i <= 6 ->
        heading_loop heading_levels (Py.str_mul "#" i +++ " " +++ rest)
        = "<h" +++ Py.str_of_int i +++ ">" +++ Py.strip rest
          +++ "</h" +++ Py.str_of_int i +++ ">" +++ Py.nl)
  /\ (forall line,
        (forall i rest, 1 <= i <= 6 -> line <> Py.str_mul "#" i +++ " " +++ rest) ->
        heading_loop heading_levels line = line)
  /\ (forall line,
        (exists i rest,
            1 <= i <= 6
            /\ line = Py.str_mul "#" i +++ " " +++ rest
            /\ heading_loop heading_levels line
               = "<h" +++ Py.str_of_int i +++ ">" +++ Py.strip rest
                 +++ "</h" +++ Py.str_of_int i +++ ">" +++ Py.nl)
        \/ ((forall i rest, 1 <= i <= 6 ->
                            line <> Py.str_mul "#" i +++ " " +++ rest)
            /\ heading_loop heading_levels line = line))
  /\ convert_markdown_heading_to_html ["### Title" +++ Py.nl]
     = ["<h3>Title</h3>" +++ Py.nl]
  /\ convert_markdown_heading_to_html ["####### x" +++ Py.nl]
     = ["####### x" +++ Py.nl].
Proof.
  split; [apply heading_map|].
  split; [intros i rest Hi; now apply heading_loop_match|].
  split; [|split; [exact heading_line_cases | split; reflexivity]].
  intros line Hno. apply heading_loop_nomatch.
  intros i Hi.
  destruct (Py.startswith (Py.str_mul "#" i +++ " ") line) eqn:E; [|reflexivity].
  apply startswith_iff in E. destruct E as [rest E].
  exfalso. apply (Hno i rest).
  - unfold heading_levels in Hi. simpl in Hi. lia.
  - rewrite E. now rewrite append_assoc.
Qed.

Lemma heading_rewriter_spec_witness :
  heading_loop heading_levels (Py.str_mul "#" 3 +++ " " +++ "Title" +++ Py.nl)
  = "<h" +++ Py.str_of_int 3 +++ ">" +++ Py.strip ("Title" +++ Py.nl)
    +++ "</h" +++ Py.str_of_int 3 +++ ">" +++ Py.nl
  /\ heading_loop heading_levels "plain" = "plain".
Proof.
  split.
  - apply (proj1 (proj2 (heading_rewriter_spec []))). lia.
  - apply (proj1 (proj2 (proj2 (heading_rewriter_spec [])))).
    intros i rest Hi H. destruct i; [lia | discriminate H].
Defined.

(* ------------------------------------------------------------------ *)
(** ** Stages 2 and 3: the list groupers *)
(* ------------------------------------------------------------------ *)

Section GrouperFacts.

Variables marker open_marker close_marker : string.

Let G := list_grouper_from marker open_marker close_marker.
Let matches (line : string) : bool := Py.startswith marker line.

Lemma grouper_pass (b : bool) (a : list string) (l : string) (r : list string) :
  matches l = false ->
  G b (a ++ l :: r) = G b a ++ l :: G false r.
Proof.
  intros Hl. revert b.
  induction a as [|x a IH]; intros b; simpl.
  - unfold matches in Hl. rewrite Hl. now destruct b.
  - destruct (Py.startswith marker x); rewrite IH, <- app_assoc; reflexivity.
Qed.

Lemma grouper_no_match (lines : list string) :
  Forall (fun l => matches l = false) lines -> G false lines = lines.
Proof.
  induction 1 as [|l lines Hl _ IH]; simpl; [reflexivity|].
  unfold matches in Hl. rewrite Hl. simpl. now rewrite IH.
Qed.

Lemma grouper_run (b : bool) (run post : list string) :
  run <> [] ->
  Forall (fun l => matches l = true) run ->
  G b (run ++ post)
  = (if b then [] else [open_marker])
    ++ map (item_of marker) run ++ G true post.
Proof.
  intros Hne Hrun. revert b.
  induction Hrun as [|l run Hl Hrun IH]; intros b; [congruence|].
  simpl. unfold matches in Hl. rewrite Hl.
  destruct run as [|l' run].
  - reflexivity.
  - rewrite IH by discriminate. reflexivity.
Qed.

Lemma grouper_close (post : list string) :
  matches (hd EmptyString post) = false ->
  G true post = close_marker :: G false post.
Proof.
  destruct post as [|l post]; simpl; intros H; [reflexivity|].
  unfold matches in H. now rewrite H.
Qed.

Lemma grouper_after (pre rest : list string) :
  matches (last pre EmptyString) = false ->
  G false (pre ++ rest) = G false pre ++ G false rest.
Proof.
  destruct pre as [|x pre' ] using rev_ind; [reflexivity|].
  rewrite last_last. intros H.
  rewrite <- app_assoc. simpl.
  rewrite !grouper_pass by assumption.
  rewrite <- app_assoc. reflexivity.
Qed.

Lemma grouper_block (pre run post : list string) :
  matches (last pre EmptyString) = false ->
  run <> [] ->
  Forall (fun l => matches l = true) run ->
  matches (hd EmptyString post) = false ->
  G false (pre ++ run ++ post)
  = G false pre ++ [open_marker] ++ map (item_of marker) run
    ++ [close_marker] ++ G false post.
Proof.
  intros Hpre Hne Hrun Hpost.
  rewrite grouper_after by assumption.
  rewrite grouper_run by assumption.
  rewrite grouper_close by assumption.
  reflexivity.
Qed.

Lemma grouper_ends_closed (lines : list string) (l : string) :
  matches l = true ->
  exists out, G false (lines ++ [l]) = out ++ [close_marker].
Proof.
  intros Hl. generalize false.
  induction lines as [|x lines IH]; intros b; simpl.
  - unfold matches in Hl. rewrite Hl.
    exists ((if b then [] else [open_marker]) ++ [item_of marker l]).
    now rewrite <- app_assoc.
  - destruct (Py.startswith marker x).
    + destruct (IH true) as [out ->].
      exists ((if b then [] else [open_marker]) ++ item_of marker x :: out).
      now rewrite <- app_assoc.
    + destruct (IH false) as [out ->].
      exists ((if b then [close_marker] else []) ++ x :: out).
      now rewrite <- app_assoc.
Qed.

(** The emitted lines by origin, rendered, are the output; without the
    container markers they are the input; and they are balanced. *)
Lemma trace_render (b : bool) (lines : list string) :
  map (render marker open_marker close_marker) (trace_from marker b lines)
  = G b lines.
Proof.
  revert b. induction lines as [|l lines IH]; intros b; simpl.
  - now destruct b.
  - destruct (Py.startswith marker l); destruct b; simpl; now rewrite IH.
Qed.

Lemma trace_origin (b : bool) (lines : list string) :
  flat_map origin (trace_from marker b lines) = lines.
Proof.
  revert b. induction lines as [|l lines IH]; intros b; simpl.
  - now destruct b.
  - destruct (Py.startswith marker l); destruct b; simpl; now rewrite IH.
Qed.

Lemma trace_classified (b : bool) (lines : list string) :
  forallb (classified marker) (trace_from marker b lines) = true.
Proof.
  revert b. induction lines as [|l lines IH]; intros b; simpl.
  - now destruct b.
  - destruct (Py.startswith marker l) eqn:E; destruct b; simpl;
      rewrite ?E, IH; reflexivity.
Qed.

Lemma trace_balanced (b : bool) (lines : list string) :
  balanced b (trace_from marker b lines) = true.
Proof.
  revert b. induction lines as [|l lines IH]; intros b; simpl.
  - now destruct b.
  - destruct (Py.startswith marker l) eqn:E; destruct b; simpl.
    + apply IH.
    + apply IH.
    + rewrite IH. destruct lines as [|l' lines]; simpl; [reflexivity|].
      now destruct (Py.startswith marker l').
    + apply IH.
Qed.

End GrouperFacts.

(** The loops of the source compute the state machine. *)
Lemma ul_step_eq (b : bool) (acc : list string) (l : string) :
  ul_step (b, acc) l
  = if Py.startswith "- " l
    then (true, acc ++ (if b then [] else [UL_OPEN]) ++ [item_of "- " l])
    else (false, acc ++ (if b then [UL_CLOSE] else []) ++ [l]).
Proof.
  unfold ul_step, item_of.
  destruct (Py.startswith "- " l); destruct b; cbn [negb];
    rewrite <- ?app_assoc; reflexivity.
Qed.

Lemma ol_step_eq (b : bool) (acc : list string) (l : string) :
  ol_step (b, acc) l
  = if Py.startswith "* " l
    then (true, acc ++ (if b then [] else [OL_OPEN]) ++ [item_of "* " l])
    else (false, acc ++ (if b then [OL_CLOSE] else []) ++ [l]).
Proof.
  unfold ol_step, item_of.
  destruct (Py.startswith "* " l); destruct b; cbn [negb];
    rewrite <- ?app_assoc; reflexivity.
Qed.

Ltac list_loop step_eq :=
  let l := fresh "l" in
  let lines := fresh "lines" in
  let IH := fresh "IH" in
  let b := fresh "b" in
  let acc := fresh "acc" in
  intros lines; induction lines as [|l lines IH]; intros b acc;
  [ cbn [fold_left list_grouper_from]; destruct b; now rewrite ?app_nil_r
  | cbn [fold_left list_grouper_from]; rewrite step_eq;
    destruct (Py.startswith _ l); rewrite IH, <- ?app_assoc; reflexivity ].

Lemma ul_loop : forall (lines : list string) (b : bool) (acc : list string),
  (let '(in_list, html_lines) := fold_left ul_step lines (b, acc) in
   if in_list then html_lines ++ [UL_CLOSE] else html_lines)
  = acc ++ list_grouper_from "- " UL_OPEN UL_CLOSE b lines.
Proof. list_loop ul_step_eq. Qed.

Lemma ol_loop : forall (lines : list string) (b : bool) (acc : list string),
  (let '(in_list, html_lines) := fold_left ol_step lines (b, acc) in
   if in_list then html_lines ++ [OL_CLOSE] else html_lines)
  = acc ++ list_grouper_from "* " OL_OPEN OL_CLOSE b lines.
Proof. list_loop ol_step_eq. Qed.

Lemma ul_grouper (lines : list string) :
  convert_markdown_ul_list_to_html lines = list_grouper "- " UL_OPEN UL_CLOSE lines.
Proof. unfold convert_markdown_ul_list_to_html. now rewrite ul_loop. Qed.

Lemma ol_grouper (lines : list string) :
  convert_markdown_ol_list_to_html lines = list_grouper "* " OL_OPEN OL_CLOSE lines.
Proof. unfold convert_markdown_ol_list_to_html. now rewrite ol_loop. Qed.

Lemma item_of_marker (marker rest : string) :
  item_of marker (marker +++ rest) = li_tag (Py.strip rest).
Proof. unfold item_of. now rewrite slice_from_append. Qed.

Lemma Forall_marked (marker : string) (rests : list string) :
  Forall (fun l => Py.startswith marker l = true) (map (String.append marker) rests).
Proof.
  apply Forall_forall. intros l Hl. apply in_map_iff in Hl.
  destruct Hl as [rest [<- _]]. apply startswith_append.
Qed.

Lemma map_item_marked (marker : string) (rests : list string) :
  map (item_of marker) (map (String.append marker) rests)
  = map (fun rest => li_tag (Py.strip rest)) rests.
Proof.
  rewrite map_map. apply map_ext. intros rest. apply item_of_marker.
Qed.

(** C2.  The unordered-list grouper wraps a maximal run of lines that start
    with ["- "] (the line before the run, if any, and the line after it, if
    any, do not start with it) in one ["<ul>\n"] ... ["</ul>\n"] pair, each
    line of the run turned into ["   <li>"], its stripped text after the
    marker and ["</li>\n"]; the lines before and after the run are grouped
    on their own; an input without such lines is returned as it is. *)
Theorem ul_grouper_wraps_runs :
  (forall pre rests post,
      Py.startswith "- " (last pre EmptyString) = false ->
      rests <> [] ->
      Py.startswith "- " (hd EmptyString post) = false ->
      convert_markdown_ul_list_to_html (pre ++ map (String.append "- ") rests ++ post)
      = convert_markdown_ul_list_to_html pre
        ++ [UL_OPEN] ++ map (fun rest => li_tag (Py.strip rest)) rests ++ [UL_CLOSE]
        ++ convert_markdown_ul_list_to_html post)
  /\ (forall lines,
        Forall (fun l => Py.startswith "- " l = false) lines ->
        convert_markdown_ul_list_to_html lines = lines)
  /\ convert_markdown_ul_list_to_html
       ["- a" +++ Py.nl; "- b" +++ Py.nl; "x" +++ Py.nl]
     = ["<ul>" +++ Py.nl; "   <li>a</li>" +++ Py.nl; "   <li>b</li>" +++ Py.nl;
        "</ul>" +++ Py.nl; "x" +++ Py.nl].
Proof.
  split; [|split; [|reflexivity]].
  - intros pre rests post Hpre Hne Hpost.
    rewrite !ul_grouper. unfold list_grouper.
    rewrite grouper_block; try assumption.
    + rewrite map_item_marked. reflexivity.
    + destruct rests; [congruence | discriminate].
    + apply Forall_marked.
  - intros lines H. rewrite ul_grouper. now apply grouper_no_match.
Qed.

Lemma ul_grouper_wraps_runs_witness :
  convert_markdown_ul_list_to_html
    (["t" +++ Py.nl] ++ map (String.append "- ") ["a" +++ Py.nl; "b" +++ Py.nl]
       ++ ["x" +++ Py.nl])
  = convert_markdown_ul_list_to_html ["t" +++ Py.nl]
    ++ [UL_OPEN] ++ map (fun rest => li_tag (Py.strip rest)) ["a" +++ Py.nl; "b" +++ Py.nl]
    ++ [UL_CLOSE] ++ convert_markdown_ul_list_to_html ["x" +++ Py.nl].
Proof.
  apply (proj1 ul_grouper_wraps_runs); [reflexivity | discriminate | reflexivity].
Defined.

(** C5.  The ordered-list grouper is the unordered-list grouper with the
    marker ["* "] for ["- "] and the containers ["<ol>\n"], ["</ol>\n"] for
    ["<ul>\n"], ["</ul>\n"]: both are the one state machine [list_grouper],
    with the same item format; [["* a\n"; "x\n"]] becomes
    [["<ol>\n"; "   <li>a</li>\n"; "</ol>\n"; "x\n"]]. *)
Theorem ol_grouper_same_machine (lines : list string) :
  convert_markdown_ul_list_to_html lines = list_grouper "- " UL_OPEN UL_CLOSE lines
  /\ convert_markdown_ol_list_to_html lines = list_grouper "* " OL_OPEN OL_CLOSE lines
  /\ convert_markdown_ol_list_to_html ["* a" +++ Py.nl; "x" +++ Py.nl]
     = ["<ol>" +++ Py.nl; "   <li>a</li>" +++ Py.nl; "</ol>" +++ Py.nl; "x" +++ Py.nl].
Proof.
  split; [apply ul_grouper | split; [apply ol_grouper | reflexivity]].
Qed.

(** The containers of one list grouper: its output read by origin. *)
Lemma grouper_balanced (marker open_marker close_marker : string) (lines : list string) :
  exists es,
    list_grouper marker open_marker close_marker lines
    = map (render marker open_marker close_marker) es
    /\ flat_map origin es = lines
    /\ forallb (classified marker) es = true
    /\ balanced false es = true.
Proof.
  exists (trace_from marker false lines).
  split; [symmetry; apply trace_render|].
  split; [apply trace_origin|].
  split; [apply trace_classified | apply trace_balanced].
Qed.

Lemma grouper_trailing (marker open_marker close_marker : string)
      (lines tail : list string) :
  Forall (fun l => Py.startswith marker l = false) tail ->
  list_grouper marker open_marker close_marker (lines ++ tail)
  = list_grouper marker open_marker close_marker lines ++ tail.
Proof.
  intros H. unfold list_grouper. destruct H as [|l tail Hl Htail].
  - now rewrite !app_nil_r.
  - rewrite grouper_pass by assumption.
    rewrite (grouper_no_match marker open_marker close_marker tail) by assumption.
    reflexivity.
Qed.

Lemma blank_lines_unmarked (marker : string) (n : nat) :
  Py.startswith marker Py.nl = false ->
  Forall (fun l => Py.startswith marker l = false) (repeat Py.nl n).
Proof.
  intros H. apply Forall_forall. intros l Hl.
  apply repeat_spec in Hl. now subst.
Qed.

(** C6.  Each list grouper's output has balanced containers.  Read by
    origin (markers of the grouper, items, lines passed on), the output is
    the input with markers added so that every opening marker is followed by
    its items and then by one closing marker, passed lines lie outside the
    blocks, and the output ends outside a block.  A run of lines without the
    marker, after whatever comes before, adds no closing marker of its own:
    the output is that of what comes before, then the run.  When the last
    line with the marker is followed only by blank lines, the closing marker
    stands right before them. *)
Theorem list_groupers_balanced (lines : list string) :
  (exists es,
      convert_markdown_ul_list_to_html lines = map (render "- " UL_OPEN UL_CLOSE) es
      /\ flat_map origin es = lines
      /\ forallb (classified "- ") es = true
      /\ balanced false es = true)
  /\ (exists es,
      convert_markdown_ol_list_to_html lines = map (render "* " OL_OPEN OL_CLOSE) es
      /\ flat_map origin es = lines
      /\ forallb (classified "* ") es = true
      /\ balanced false es = true)
  /\ (forall tail,
      Forall (fun l => Py.startswith "- " l = false) tail ->
      convert_markdown_ul_list_to_html (lines ++ tail)
      = convert_markdown_ul_list_to_html lines ++ tail)
  /\ (forall tail,
      Forall (fun l => Py.startswith "* " l = false) tail ->
      convert_markdown_ol_list_to_html (lines ++ tail)
      = convert_markdown_ol_list_to_html lines ++ tail)
  /\ (forall rest n, exists out,
      convert_markdown_ul_list_to_html (lines ++ ["- " +++ rest])
      = out ++ [UL_CLOSE]
      /\ convert_markdown_ul_list_to_html (lines ++ ["- " +++ rest] ++ repeat Py.nl n)
         = out ++ [UL_CLOSE] ++ repeat Py.nl n)
  /\ (forall rest n, exists out,
      convert_markdown_ol_list_to_html (lines ++ ["* " +++ rest])
      = out ++ [OL_CLOSE]
      /\ convert_markdown_ol_list_to_html (lines ++ ["* " +++ rest] ++ repeat Py.nl n)
         = out ++ [OL_CLOSE] ++ repeat Py.nl n).
Proof.
  split; [rewrite ul_grouper; apply grouper_balanced|].
  split; [rewrite ol_grouper; apply grouper_balanced|].
  split; [intros tail H; rewrite !ul_grouper; now apply grouper_trailing|].
  split; [intros tail H; rewrite !ol_grouper; now apply grouper_trailing|].
  split; intros rest n.
  - destruct (grouper_ends_closed "- " UL_OPEN UL_CLOSE lines ("- " +++ rest))
      as [out Hout]; [apply startswith_append|].
    exists out. rewrite !ul_grouper. unfold list_grouper at 1.
    split; [exact Hout|].
    rewrite app_assoc, grouper_trailing by (now apply blank_lines_unmarked).
    unfold list_grouper. rewrite Hout, <- app_assoc. reflexivity.
  - destruct (grouper_ends_closed "* " OL_OPEN OL_CLOSE lines ("* " +++ rest))
      as [out Hout]; [apply startswith_append|].
    exists out. rewrite !ol_grouper. unfold list_grouper at 1.
    split; [exact Hout|].
    rewrite app_assoc, grouper_trailing by (now apply blank_lines_unmarked).
    unfold list_grouper. rewrite Hout, <- app_assoc. reflexivity.
Qed.

Lemma list_groupers_balanced_witness :
  convert_markdown_ul_list_to_html (["- a" +++ Py.nl] ++ ["x" +++ Py.nl; Py.nl])
  = convert_markdown_ul_list_to_html ["- a" +++ Py.nl] ++ ["x" +++ Py.nl; Py.nl].
Proof.
  apply (proj1 (proj2 (proj2 (list_groupers_balanced ["- a" +++ Py.nl])))).
  repeat constructor.
Defined.

(* ------------------------------------------------------------------ *)
(** ** Stage 4: the paragraph grouper *)
(* ------------------------------------------------------------------ *)

Lemma update_last_snoc (f : string -> string) (acc : list string) (c : string) :
  update_last f (acc ++ [c]) = Some (acc ++ [f c]).
Proof. unfold update_last. now rewrite rev_unit, rev_involutive. Qed.

Lemma close_paragraph_snoc (acc : list string) (c : string) :
  close_paragraph (acc ++ [c]) = Some (acc ++ [drop_br c; P_CLOSE]).
Proof.
  unfold close_paragraph. rewrite update_last_snoc. simpl.
  now rewrite <- app_assoc.
Qed.

Lemma para_finish_state (pending : option string) (acc : list string) :
  para_finish (para_state_of pending acc) = Some (acc ++ para_closing pending).
Proof.
  destruct pending as [c|]; simpl.
  - apply close_paragraph_snoc.
  - now rewrite app_nil_r.
Qed.

Lemma para_step_state (pending : option string) (acc : list string) (l : string) :
  para_step (para_state_of pending acc) l
  = Some (if is_plain l
          then para_state_of (Some (p_content l))
                 (acc ++ [match pending with Some c => c | None => P_OPEN end])
          else para_state_of None (acc ++ para_closing pending ++ [l])).
Proof.
  unfold para_step.
  destruct pending as [c|]; cbn [para_state_of]; destruct (is_plain l); cbn [negb].
  - reflexivity.
  - rewrite close_paragraph_snoc. cbn [bind para_closing].
    now rewrite <- app_assoc.
  - reflexivity.
  - reflexivity.
Qed.

Lemma para_loop_from (lines : list string) :
  forall (pending : option string) (acc : list string),
    (st <- para_loop lines (para_state_of pending acc) ;; para_finish st)
    = Some (acc ++ para_from pending lines).
Proof.
  induction lines as [|l lines IH]; intros pending acc.
  - cbn [para_loop bind para_from]. apply para_finish_state.
  - cbn [para_loop para_from]. rewrite para_step_state. cbn [bind].
    destruct (is_plain l); rewrite IH, <- ?app_assoc; reflexivity.
Qed.

Lemma para_grouper (lines : list string) :
  convert_markdown_paragraph_to_html lines = Some (para_from None lines).
Proof.
  change (convert_markdown_paragraph_to_html lines)
    with (st <- para_loop lines (para_state_of None []) ;; para_finish st).
  now rewrite para_loop_from.
Qed.

Lemma is_plain_empty : is_plain EmptyString = false.
Proof. reflexivity. Qed.

Lemma para_pass (pending : option string) (a : list string) (l : string)
      (r : list string) :
  is_plain l = false ->
  para_from pending (a ++ l :: r)
  = para_from pending a ++ l :: para_from None r.
Proof.
  intros Hl. revert pending.
  induction a as [|x a IH]; intros pending; cbn [app para_from].
  - rewrite Hl. destruct pending; reflexivity.
  - destruct (is_plain x); rewrite IH.
    + reflexivity.
    + now rewrite <- app_assoc.
Qed.

Lemma para_no_plain (lines : list string) :
  Forall (fun l => is_plain l = false) lines -> para_from None lines = lines.
Proof.
  induction 1 as [|l lines Hl _ IH]; cbn [para_from]; [reflexivity|].
  rewrite Hl, IH. reflexivity.
Qed.

Lemma para_run (pending : option string) (run post : list string) :
  run <> [] ->
  Forall (fun l => is_plain l = true) run ->
  para_from pending (run ++ post)
  = match pending with Some c => c | None => P_OPEN end
    :: map p_content (removelast run)
    ++ para_from (Some (p_content (last run EmptyString))) post.
Proof.
  intros Hne Hrun. revert pending.
  induction Hrun as [|l run Hl Hrun IH]; intros pending; [congruence|].
  cbn [app para_from]. rewrite Hl.
  destruct run as [|l' run].
  - reflexivity.
  - rewrite IH by discriminate. reflexivity.
Qed.

Lemma para_close (c : string) (post : list string) :
  is_plain (hd EmptyString post) = false ->
  para_from (Some c) post = drop_br c :: P_CLOSE :: para_from None post.
Proof.
  destruct post as [|l post]; cbn [hd para_from]; intros H; [reflexivity|].
  now rewrite H.
Qed.

Lemma para_after (pre rest : list string) :
  is_plain (last pre EmptyString) = false ->
  para_from None (pre ++ rest) = para_from None pre ++ para_from None rest.
Proof.
  destruct pre as [|x pre' ] using rev_ind; [reflexivity|].
  rewrite last_last. intros H.
  rewrite <- app_assoc. cbn [app].
  rewrite !para_pass by assumption.
  rewrite <- app_assoc. reflexivity.
Qed.

Lemma para_block (pre run post : list string) :
  is_plain (last pre EmptyString) = false ->
  run <> [] ->
  Forall (fun l => is_plain l = true) run ->
  is_plain (hd EmptyString post) = false ->
  para_from None (pre ++ run ++ post)
  = para_from None pre
    ++ [P_OPEN] ++ map p_content (removelast run)
    ++ [drop_br (p_content (last run EmptyString)); P_CLOSE]
    ++ para_from None post.
Proof.
  intros Hpre Hne Hrun Hpost.
  rewrite para_after by assumption.
  rewrite para_run by assumption.
  rewrite para_close by assumption.
  reflexivity.
Qed.

(* ------------------------------------------------------------------ *)
(** ** Dropping the break *)
(* ------------------------------------------------------------------ *)

Lemma drop_br_occurrence (rest : string) :
  drop_br (BR_NL +++ rest) = Py.nl +++ drop_br rest.
Proof. reflexivity. Qed.

Lemma drop_br_other (c : ascii) (s : string) :
  Py.startswith BR_NL (String c s) = false ->
  drop_br (String c s) = String c (drop_br s).
Proof.
  intros H. unfold drop_br, Py.replace. cbn [Py.replace_from].
  now rewrite H.
Qed.

(** Induction along the scan of [drop_br]. *)
Lemma drop_br_ind (P : string -> Prop) :
  P EmptyString ->
  (forall rest, P rest -> P (BR_NL +++ rest)) ->
  (forall c s, Py.startswith BR_NL (String c s) = false -> P s -> P (String c s)) ->
  forall s, P s.
Proof.
  intros Hnil Hocc Hother s.
  assert (forall n s, String.length s <= n -> P s) as H.
  { clear s. induction n as [|n IH]; intros s Hlen.
    - destruct s; [exact Hnil | simpl in Hlen; lia].
    - destruct s as [|c s]; [exact Hnil|].
      destruct (Py.startswith BR_NL (String c s)) eqn:E.
      + apply startswith_iff in E. destruct E as [rest E]. rewrite E.
        apply Hocc, IH. rewrite E in Hlen.
        rewrite length_append in Hlen. simpl in Hlen. lia.
      + apply Hother; [exact E|]. apply IH. simpl in Hlen. lia. }
  apply (H (String.length s)). lia.
Qed.

(** No occurrence of the break lies across the end of the text and the
    break appended to it. *)
Lemma no_straddle (c : ascii) (s : string) :
  Py.startswith BR_NL (String c s) = false ->
  Py.startswith BR_NL (String c s +++ BR_NL) = false.
Proof.
  destruct s as [|c1 [|c2 [|c3 [|c4 [|c5 s]]]]]; intros H;
    cbn in *; try exact H;
    repeat (apply andb_false_iff; right); reflexivity.
Qed.

Lemma drop_br_snoc (t : string) : drop_br (t +++ BR_NL) = drop_br t +++ Py.nl.
Proof.
  induction t as [|rest IH|c s E IH] using drop_br_ind.
  - reflexivity.
  - rewrite append_assoc, !drop_br_occurrence, IH. reflexivity.
  - change (String c s +++ BR_NL) with (String c (s +++ BR_NL)).
    rewrite !drop_br_other; [now rewrite IH | exact E |].
    now apply no_straddle.
Qed.

Lemma drop_br_p_line (s : string) :
  drop_br (p_line s) = "    " +++ drop_br s +++ Py.nl.
Proof.
  unfold p_line. cbn [String.append].
  rewrite !drop_br_other by reflexivity.
  now rewrite drop_br_snoc.
Qed.

Lemma startswith_br_has_lf (s : string) :
  Py.startswith BR_NL s = true -> no_lf s = false.
Proof.
  intros H. apply startswith_iff in H. destruct H as [rest ->]. reflexivity.
Qed.

Lemma drop_br_no_lf (s : string) : no_lf s = true -> drop_br s = s.
Proof.
  induction s as [|c s IH]; intros H; [reflexivity|].
  rewrite drop_br_other.
  - rewrite IH; [reflexivity|]. simpl in H. now apply andb_true_iff in H.
  - destruct (Py.startswith BR_NL (String c s)) eqn:E; [|reflexivity].
    apply startswith_br_has_lf in E. congruence.
Qed.

Lemma drop_br_keeps_lf (s : string) : no_lf (drop_br s) = true -> drop_br s = s.
Proof.
  induction s as [|rest IH|c s E IH] using drop_br_ind.
  - reflexivity.
  - rewrite drop_br_occurrence. discriminate.
  - rewrite drop_br_other by exact E. intros H.
    rewrite IH; [reflexivity|]. simpl in H. now apply andb_true_iff in H.
Qed.

Lemma ends_with_cons (p : string) (c : ascii) (x : string) :
  ends_with p (String c x) <-> ends_with p x \/ String c x = p.
Proof.
  split.
  - intros [y H]. destruct y as [|d y].
    + right. exact H.
    + left. exists y. simpl in H. now injection H.
  - intros [[y H]| H].
    + exists (String c y). simpl. now rewrite H.
    + exists EmptyString. exact H.
Qed.

Lemma ends_with_skip (p : string) (c : ascii) (x : string) :
  String c x <> p -> (ends_with p (String c x) <-> ends_with p x).
Proof.
  intros Hne. rewrite ends_with_cons. split; [intros [H|H] | intros H].
  - exact H.
  - contradiction.
  - now left.
Qed.

Lemma ends_br_drop_br (s : string) : ends_with BR (drop_br s) <-> ends_with BR s.
Proof.
  induction s as [|rest IH|c s E IH] using drop_br_ind.
  - reflexivity.
  - rewrite drop_br_occurrence. cbn [String.append BR_NL BR Py.nl].
    rewrite !ends_with_skip by discriminate. exact IH.
  - rewrite drop_br_other by exact E.
    rewrite !ends_with_cons, IH.
    assert (String c (drop_br s) = BR <-> String c s = BR) as Heq.
    { split; intros H.
      - assert (drop_br s = s) as Hs.
        { apply drop_br_keeps_lf. injection H as _ ->. reflexivity. }
        now rewrite <- Hs.
      - injection H as -> ->. reflexivity. }
    rewrite Heq. reflexivity.
Qed.

Lemma append_nl_inj (a b : string) : a +++ Py.nl = b +++ Py.nl -> a = b.
Proof.
  revert b. induction a as [|x a IH]; intros [|y b] H; simpl in H.
  - reflexivity.
  - injection H as _ H. destruct b; discriminate.
  - injection H as _ H. destruct a; discriminate.
  - injection H as -> H. now rewrite (IH b H).
Qed.

(** The last line of a paragraph ends in a break exactly when the text of
    its input line does. *)
Lemma closed_line_break (s : string) :
  ends_with BR_NL (drop_br (p_line s)) <-> ends_with BR s.
Proof.
  rewrite drop_br_p_line.
  transitivity (ends_with BR ("    " +++ drop_br s)).
  - split; intros [y H]; exists y.
    + apply append_nl_inj. rewrite !append_assoc. exact H.
    + unfold BR_NL. rewrite <- (append_assoc y), <- H.
      now rewrite append_assoc.
  - cbn [String.append].
    do 4 (rewrite ends_with_skip by discriminate).
    apply ends_br_drop_br.
Qed.

Lemma closed_line_no_lf (s : string) :
  no_lf s = true -> drop_br (p_line s) = "    " +++ s +++ Py.nl.
Proof. intros H. now rewrite drop_br_p_line, drop_br_no_lf. Qed.

Lemma p_content_ends_in_break (l : string) : ends_with BR_NL (p_content l).
Proof.
  exists ("    " +++ Py.strip l). unfold p_content, p_line.
  now rewrite append_assoc.
Qed.

(** The paragraph grouper on a maximal run of plain lines, in terms of the
    function of the source. *)
Lemma paragraph_block (pre run post : list string) :
  is_plain (last pre EmptyString) = false ->
  run <> [] ->
  Forall (fun l => is_plain l = true) run ->
  is_plain (hd EmptyString post) = false ->
  exists out_pre out_post,
    convert_markdown_paragraph_to_html pre = Some out_pre
    /\ convert_markdown_paragraph_to_html post = Some out_post
    /\ convert_markdown_paragraph_to_html (pre ++ run ++ post)
       = Some (out_pre
               ++ [P_OPEN] ++ map p_content (removelast run)
               ++ [drop_br (p_content (last run EmptyString)); P_CLOSE]
               ++ out_post).
Proof.
  intros Hpre Hne Hrun Hpost.
  exists (para_from None pre), (para_from None post).
  rewrite !para_grouper, para_block by assumption.
  repeat split; reflexivity.
Qed.

(** C3, as stated, fails: the text of a line may itself end in ["<br/>"],
    and then the last content line of its paragraph still ends in
    ["<br/>\n"]. *)
Lemma paragraph_last_line_ends_in_break :
  exists c,
    convert_markdown_paragraph_to_html ["x<br/>" +++ Py.nl]
    = Some [P_OPEN; c; P_CLOSE]
    /\ c = "    x<br/>" +++ Py.nl
    /\ ends_with BR_NL c.
Proof.
  exists ("    x<br/>" +++ Py.nl).
  split; [reflexivity | split; [reflexivity|]].
  now exists "    x".
Qed.

(** C3, amended.  For a maximal run of plain lines the paragraph grouper
    emits ["<p>\n"], one content line per line of the run and ["</p>\n"],
    between the outputs for what precedes and what follows the run (nothing,
    at the end of the input).  Every content line but the last is the
    indentation, the stripped text and ["<br/>\n"].  The last is that line
    with the appended break dropped: indentation, stripped text, line feed
    when the text has no line feed inside; it ends in ["<br/>\n"] exactly
    when the stripped text itself ends in ["<br/>"].
    [["line1\n"; "line2\n"; "\n"]] becomes
    [["<p>\n"; "    line1<br/>\n"; "    line2\n"; "</p>\n"; "\n"]], and
    the same happens to a paragraph open at the end of the input. *)
Theorem paragraph_last_line_break :
  (forall pre run post,
      is_plain (last pre EmptyString) = false ->
      run <> [] ->
      Forall (fun l => is_plain l = true) run ->
      is_plain (hd EmptyString post) = false ->
      exists out_pre out_post,
        convert_markdown_paragraph_to_html pre = Some out_pre
        /\ convert_markdown_paragraph_to_html post = Some out_post
        /\ convert_markdown_paragraph_to_html (pre ++ run ++ post)
           = Some (out_pre
                   ++ [P_OPEN] ++ map p_content (removelast run)
                   ++ [drop_br (p_content (last run EmptyString)); P_CLOSE]
                   ++ out_post))
  /\ (forall l, p_content l = "    " +++ Py.strip l +++ BR_NL
                /\ ends_with BR_NL (p_content l))
  /\ (forall l, no_lf (Py.strip l) = true ->
                drop_br (p_content l) = "    " +++ Py.strip l +++ Py.nl)
  /\ (forall l, ends_with BR_NL (drop_br (p_content l)) <-> ends_with BR (Py.strip l))
  /\ convert_markdown_paragraph_to_html ["line1" +++ Py.nl; "line2" +++ Py.nl; Py.nl]
     = Some ["<p>" +++ Py.nl; "    line1<br/>" +++ Py.nl; "    line2" +++ Py.nl;
             "</p>" +++ Py.nl; Py.nl]
  /\ convert_markdown_paragraph_to_html ["line1" +++ Py.nl; "line2" +++ Py.nl]
     = Some ["<p>" +++ Py.nl; "    line1<br/>" +++ Py.nl; "    line2" +++ Py.nl;
             "</p>" +++ Py.nl].
Proof.
  split; [exact paragraph_block|].
  split; [intros l; split; [reflexivity | apply p_content_ends_in_break]|].
  split; [intros l H; now apply closed_line_no_lf|].
  split; [intros l; apply closed_line_break|].
  split; reflexivity.
Qed.

Lemma paragraph_last_line_break_witness :
  exists out_pre out_post,
    convert_markdown_paragraph_to_html [Py.nl] = Some out_pre
    /\ convert_markdown_paragraph_to_html ["# t" +++ Py.nl] = Some out_post
    /\ convert_markdown_paragraph_to_html
         ([Py.nl] ++ ["a" +++ Py.nl; "b<br/>" +++ Py.nl] ++ ["# t" +++ Py.nl])
       = Some (out_pre
               ++ [P_OPEN] ++ map p_content (removelast ["a" +++ Py.nl; "b<br/>" +++ Py.nl])
               ++ [drop_br (p_content (last ["a" +++ Py.nl; "b<br/>" +++ Py.nl] EmptyString));
                   P_CLOSE]
               ++ out_post).
Proof.
  apply (proj1 paragraph_last_line_break);
    [reflexivity | discriminate | repeat constructor | reflexivity].
Defined.

(* ------------------------------------------------------------------ *)
(** ** Lines a stage does not match *)
(* ------------------------------------------------------------------ *)

Lemma heading_pass (a : list string) (l : string) (b : list string) :
  no_heading l ->
  convert_markdown_heading_to_html (a ++ l :: b)
  = convert_markdown_heading_to_html a ++ l :: convert_markdown_heading_to_html b.
Proof.
  intros Hl. rewrite !heading_map, map_app. cbn [map].
  now rewrite (heading_loop_nomatch heading_levels l Hl).
Qed.

Lemma ul_pass (a : list string) (l : string) (b : list string) :
  Py.startswith "- " l = false ->
  convert_markdown_ul_list_to_html (a ++ l :: b)
  = convert_markdown_ul_list_to_html a ++ l :: convert_markdown_ul_list_to_html b.
Proof. intros Hl. rewrite !ul_grouper. now apply grouper_pass. Qed.

Lemma ol_pass (a : list string) (l : string) (b : list string) :
  Py.startswith "* " l = false ->
  convert_markdown_ol_list_to_html (a ++ l :: b)
  = convert_markdown_ol_list_to_html a ++ l :: convert_markdown_ol_list_to_html b.
Proof. intros Hl. rewrite !ol_grouper. now apply grouper_pass. Qed.

Lemma paragraph_pass (a : list string) (l : string) (b : list string) :
  is_plain l = false ->
  exists out_a out_b,
    convert_markdown_paragraph_to_html a = Some out_a
    /\ convert_markdown_paragraph_to_html b = Some out_b
    /\ convert_markdown_paragraph_to_html (a ++ l :: b) = Some (out_a ++ l :: out_b).
Proof.
  intros Hl. exists (para_from None a), (para_from None b).
  rewrite !para_grouper, para_pass by assumption.
  repeat split; reflexivity.
Qed.

(** C7.  In each of the four stages, an input line the stage does not match
    (no heading prefix; no ["- "] prefix; no ["* "] prefix; not plain)
    stands in the output as it is in the input, terminator or none
    included, between the outputs for the lines before it and for the lines
    after it. *)
Theorem stages_keep_unmatched_lines (a : list string) (l : string) (b : list string) :
  (no_heading l ->
   convert_markdown_heading_to_html (a ++ l :: b)
   = convert_markdown_heading_to_html a ++ l :: convert_markdown_heading_to_html b)
  /\ (Py.startswith "- " l = false ->
      convert_markdown_ul_list_to_html (a ++ l :: b)
      = convert_markdown_ul_list_to_html a ++ l :: convert_markdown_ul_list_to_html b)
  /\ (Py.startswith "* " l = false ->
      convert_markdown_ol_list_to_html (a ++ l :: b)
      = convert_markdown_ol_list_to_html a ++ l :: convert_markdown_ol_list_to_html b)
  /\ (is_plain l = false ->
      exists out_a out_b,
        convert_markdown_paragraph_to_html a = Some out_a
        /\ convert_markdown_paragraph_to_html b = Some out_b
        /\ convert_markdown_paragraph_to_html (a ++ l :: b)
           = Some (out_a ++ l :: out_b)).
Proof.
  split; [apply heading_pass|].
  split; [apply ul_pass|].
  split; [apply ol_pass | apply paragraph_pass].
Qed.

Lemma no_heading_dec_false (l : string) :
  forallb (fun i => negb (Py.startswith (Py.str_mul "#" i +++ " ") l)) heading_levels
  = true ->
  no_heading l.
Proof.
  intros H i Hi. rewrite forallb_forall in H.
  specialize (H i Hi). now apply negb_true_iff in H.
Qed.

Lemma stages_keep_unmatched_lines_witness :
  (convert_markdown_heading_to_html (["# a" +++ Py.nl] ++ "#x" :: ["## b" +++ Py.nl])
   = convert_markdown_heading_to_html ["# a" +++ Py.nl]
     ++ "#x" :: convert_markdown_heading_to_html ["## b" +++ Py.nl])
  /\ (convert_markdown_ul_list_to_html (["- a" +++ Py.nl] ++ "-x" :: ["- b" +++ Py.nl])
      = convert_markdown_ul_list_to_html ["- a" +++ Py.nl]
        ++ "-x" :: convert_markdown_ul_list_to_html ["- b" +++ Py.nl])
  /\ (convert_markdown_ol_list_to_html (["* a" +++ Py.nl] ++ "*x" :: ["* b" +++ Py.nl])
      = convert_markdown_ol_list_to_html ["* a" +++ Py.nl]
        ++ "*x" :: convert_markdown_ol_list_to_html ["* b" +++ Py.nl])
  /\ (exists out_a out_b,
        convert_markdown_paragraph_to_html ["a" +++ Py.nl] = Some out_a
        /\ convert_markdown_paragraph_to_html ["b" +++ Py.nl] = Some out_b
        /\ convert_markdown_paragraph_to_html (["a" +++ Py.nl] ++ Py.nl :: ["b" +++ Py.nl])
           = Some (out_a ++ Py.nl :: out_b)).
Proof.
  split; [|split; [|split]].
  - apply (proj1 (stages_keep_unmatched_lines ["# a" +++ Py.nl] "#x" ["## b" +++ Py.nl])).
    apply no_heading_dec_false. reflexivity.
  - apply (proj1 (proj2 (stages_keep_unmatched_lines
                           ["- a" +++ Py.nl] "-x" ["- b" +++ Py.nl]))).
    reflexivity.
  - apply (proj1 (proj2 (proj2 (stages_keep_unmatched_lines
                                  ["* a" +++ Py.nl] "*x" ["* b" +++ Py.nl])))).
    reflexivity.
  - apply (proj2 (proj2 (proj2 (stages_keep_unmatched_lines
                                  ["a" +++ Py.nl] Py.nl ["b" +++ Py.nl])))).
    reflexivity.
Defined.

(* ------------------------------------------------------------------ *)
(** ** Plain lines and tag lines *)
(* ------------------------------------------------------------------ *)

Lemma lstrip_head (l : string) (c : ascii) (r : string) :
  Py.lstrip l = String c r ->
  exists h t, l = String h t /\ (h = c \/ Py.isspace h = true).
Proof.
  destruct l as [|h t]; [discriminate|]. simpl.
  destruct (Py.isspace h) eqn:E; intros H; exists h, t.
  - split; [reflexivity | now right].
  - injection H as -> _. split; [reflexivity | now left].
Qed.

Lemma rstrip_head (s : string) (c : ascii) (r : string) :
  Py.rstrip s = String c r -> exists t, s = String c t.
Proof.
  destruct s as [|d t]; [discriminate|]. simpl.
  destruct (Py.rstrip t); [destruct (Py.isspace d)|]; intros H;
    try discriminate; injection H as -> _; now exists t.
Qed.

Lemma strip_head (l : string) (c : ascii) (r : string) :
  Py.strip l = String c r ->
  exists h t, l = String h t /\ (h = c \/ Py.isspace h = true).
Proof.
  unfold Py.strip. intros H. apply rstrip_head in H. destruct H as [t H].
  now apply lstrip_head in H.
Qed.

Lemma rstrip_cons_nonspace (c : ascii) (s : string) :
  Py.isspace c = false -> exists r, Py.rstrip (String c s) = String c r.
Proof.
  intros H. simpl. destruct (Py.rstrip s) as [|d r].
  - rewrite H. now exists EmptyString.
  - now exists (String d r).
Qed.

Lemma is_plain_iff (line : string) :
  is_plain line = true
  <-> exists c rest, Py.strip line = String c rest
                     /\ c <> "#"%char /\ c <> "-"%char /\ c <> "*"%char.
Proof.
  unfold is_plain. destruct (Py.strip line) as [|c rest].
  - split; [discriminate | intros [c [rest [H _]]]; discriminate].
  - cbn [Py.truthy Py.startswith_any existsb Py.startswith andb].
    rewrite !andb_true_r, orb_false_r.
    split.
    + intros H. apply negb_true_iff in H.
      apply orb_false_iff in H. destruct H as [H1 H].
      apply orb_false_iff in H. destruct H as [H2 H3].
      exists c, rest. split; [reflexivity|].
      repeat split; intros ->; discriminate.
    + intros [c' [rest' [H [H1 [H2 H3]]]]]. injection H as <- _.
      apply negb_true_iff.
      rewrite !orb_false_iff. repeat split; apply Ascii.eqb_neq; congruence.
Qed.

Lemma tag_line_plain (l : string) : is_tag_line l = true -> is_plain l = true.
Proof.
  unfold is_tag_line. intros H. apply startswith_iff in H. destruct H as [rest H].
  apply is_plain_iff. exists "<"%char, rest. split; [exact H|].
  repeat split; discriminate.
Qed.

Lemma startswith_head_mismatch (q : ascii) (p : string) (h : ascii) (t : string) :
  q <> h -> Py.startswith (String q p) (String h t) = false.
Proof.
  intros H. simpl. apply Ascii.eqb_neq in H. now rewrite H.
Qed.

(** A tag line is outside the patterns of the first three stages. *)
Lemma tag_line_unmatched (l : string) :
  is_tag_line l = true ->
  no_heading l /\ Py.startswith "- " l = false /\ Py.startswith "* " l = false.
Proof.
  unfold is_tag_line. intros H. apply startswith_iff in H. destruct H as [rest H].
  apply strip_head in H. destruct H as [h [t [-> Hh]]].
  assert (h <> "#"%char /\ h <> "-"%char /\ h <> "*"%char) as [H1 [H2 H3]].
  { destruct Hh as [->|Hh]; repeat split; try discriminate;
      intros ->; discriminate. }
  split; [|split].
  - intros i Hi. unfold heading_levels in Hi. simpl in Hi.
    destruct Hi as [<-|[<-|[<-|[<-|[<-|[<-|[]]]]]]];
      apply startswith_head_mismatch; congruence.
  - apply startswith_head_mismatch. congruence.
  - apply startswith_head_mismatch. congruence.
Qed.

Lemma tag_li (x : string) : is_tag_line (li_tag x) = true.
Proof.
  unfold is_tag_line, li_tag, Py.strip. cbn [String.append Py.lstrip].
  change (Py.isspace " ") with true. change (Py.isspace "<") with false.
  cbv iota.
  destruct (rstrip_cons_nonspace "<" ("li>" +++ x +++ "</li>" +++ Py.nl) eq_refl)
    as [r Hr].
  cbn [String.append] in Hr. now rewrite Hr.
Qed.

Lemma tag_heading (i : nat) (line : string) : is_tag_line (heading_tag i line) = true.
Proof.
  unfold is_tag_line, heading_tag, Py.strip. cbn [String.append Py.lstrip].
  change (Py.isspace "<") with false. cbv iota.
  match goal with
  | |- Py.startswith _ (Py.rstrip (String _ ?s)) = true =>
      destruct (rstrip_cons_nonspace "<" s eq_refl) as [r Hr]
  end.
  now rewrite Hr.
Qed.

(* ------------------------------------------------------------------ *)
(** ** Plain lines inside paragraphs *)
(* ------------------------------------------------------------------ *)

Lemma run_before (a : list string) :
  exists pre run,
    a = pre ++ run
    /\ Forall (fun l => is_plain l = true) run
    /\ is_plain (last pre EmptyString) = false.
Proof.
  induction a as [|x a IH] using rev_ind.
  - exists [], []. repeat split; constructor.
  - destruct (is_plain x) eqn:E.
    + destruct IH as [pre [run [-> [Hrun Hpre]]]].
      exists pre, (run ++ [x]). rewrite app_assoc. repeat split; try assumption.
      apply Forall_app. split; [assumption | now constructor].
    + exists (a ++ [x]), []. rewrite app_nil_r, last_last.
      repeat split; [constructor | assumption].
Qed.

Lemma run_after (b : list string) :
  exists run post,
    b = run ++ post
    /\ Forall (fun l => is_plain l = true) run
    /\ is_plain (hd EmptyString post) = false.
Proof.
  induction b as [|x b IH].
  - exists [], []. repeat split; constructor.
  - destruct (is_plain x) eqn:E.
    + destruct IH as [run [post [-> [Hrun Hpost]]]].
      exists (x :: run), post. repeat split; try assumption. now constructor.
    + exists [], (x :: b). repeat split; [constructor | assumption].
Qed.

Lemma block_lines_last (run : list string) :
  run <> [] ->
  map p_content (removelast run) ++ [drop_br (p_content (last run EmptyString))]
  = block_lines run.
Proof.
  induction run as [|l run IH]; intros H; [congruence|].
  destruct run as [|l' run]; [reflexivity|].
  change (block_lines (l :: l' :: run))
    with (p_content l :: block_lines (l' :: run)).
  rewrite <- IH by discriminate. reflexivity.
Qed.

Lemma block_lines_app (r1 : list string) (l : string) (r2 : list string) :
  block_lines (r1 ++ l :: r2)
  = map p_content r1
    ++ match r2 with [] => drop_br (p_content l) | _ :: _ => p_content l end
    :: block_lines r2.
Proof.
  induction r1 as [|x r1 IH].
  - destruct r2; reflexivity.
  - cbn [app map]. rewrite <- IH.
    destruct r1; reflexivity.
Qed.

Lemma p_content_indented (l : string) : Py.startswith "    " (p_content l) = true.
Proof. reflexivity. Qed.

Lemma closed_line_indented (l : string) :
  Py.startswith "    " (drop_br (p_content l)) = true.
Proof. unfold p_content. rewrite drop_br_p_line. reflexivity. Qed.

Lemma block_lines_indented (run : list string) :
  Forall (fun x => Py.startswith "    " x = true) (block_lines run).
Proof.
  induction run as [|l run IH]; [constructor|].
  destruct run as [|l' run].
  - constructor; [apply closed_line_indented | constructor].
  - constructor; [apply p_content_indented | exact IH].
Qed.

(** A plain line ends up as a content line between the markers of one
    paragraph, among content lines only. *)
Lemma plain_line_wrapped (a : list string) (l : string) (b : list string) :
  is_plain l = true ->
  exists before inside1 c inside2 after,
    convert_markdown_paragraph_to_html (a ++ l :: b)
    = Some (before ++ [P_OPEN] ++ inside1 ++ [c] ++ inside2 ++ [P_CLOSE] ++ after)
    /\ (c = p_content l \/ c = drop_br (p_content l))
    /\ Forall (fun x => Py.startswith "    " x = true) (inside1 ++ inside2).
Proof.
  intros Hl.
  destruct (run_before a) as [pre [r1 [-> [Hr1 Hpre]]]].
  destruct (run_after b) as [r2 [post [-> [Hr2 Hpost]]]].
  exists (para_from None pre), (map p_content r1),
    (match r2 with [] => drop_br (p_content l) | _ :: _ => p_content l end),
    (block_lines r2), (para_from None post).
  split; [|split].
  - rewrite para_grouper.
    replace ((pre ++ r1) ++ l :: r2 ++ post) with (pre ++ (r1 ++ l :: r2) ++ post)
      by (now rewrite <- !app_assoc).
    rewrite para_block; try assumption.
    + assert (map p_content (removelast (r1 ++ l :: r2))
              ++ [drop_br (p_content (last (r1 ++ l :: r2) EmptyString))]
              = map p_content r1
                ++ match r2 with [] => drop_br (p_content l) | _ :: _ => p_content l end
                :: block_lines r2) as Hb.
      { rewrite block_lines_last by (now destruct r1). apply block_lines_app. }
      do 2 f_equal.
      change ([P_OPEN] ++ ?x) with (P_OPEN :: x). f_equal.
      match goal with
      | |- ?m ++ [?d; P_CLOSE] ++ ?t = _ =>
          change (m ++ [d; P_CLOSE] ++ t) with (m ++ [d] ++ [P_CLOSE] ++ t)
      end.
      rewrite app_assoc, Hb, <- app_assoc. reflexivity.
    + now destruct r1.
    + apply Forall_app. split; [assumption | now constructor].
  - destruct r2; [now right | now left].
  - apply Forall_app. split.
    + apply Forall_forall. intros x Hx. apply in_map_iff in Hx.
      destruct Hx as [y [<- _]]. apply p_content_indented.
    + apply block_lines_indented.
Qed.

(* ------------------------------------------------------------------ *)
(** ** The pipeline *)
(* ------------------------------------------------------------------ *)

Lemma convert_total (lines : list string) :
  convert lines
  = Some (para_from None
            (convert_markdown_ol_list_to_html
               (convert_markdown_ul_list_to_html
                  (convert_markdown_heading_to_html lines)))).
Proof. unfold convert. apply para_grouper. Qed.

(** A tag line of the input goes through the first three stages as it is and
    becomes a content line in the fourth. *)
Lemma convert_wraps_tag_line (lines : list string) (l : string) :
  In l lines ->
  is_tag_line l = true ->
  exists out,
    convert lines = Some out
    /\ (In (p_content l) out \/ In (drop_br (p_content l)) out).
Proof.
  intros Hin Htag.
  destruct (tag_line_unmatched l Htag) as [Hh [Hu Ho]].
  apply in_split in Hin. destruct Hin as [a [b ->]].
  unfold convert.
  rewrite heading_pass, ul_pass, ol_pass by assumption.
  destruct (plain_line_wrapped
              (convert_markdown_ol_list_to_html
                 (convert_markdown_ul_list_to_html (convert_markdown_heading_to_html a)))
              l
              (convert_markdown_ol_list_to_html
                 (convert_markdown_ul_list_to_html (convert_markdown_heading_to_html b)))
              (tag_line_plain l Htag))
    as [before [inside1 [c [inside2 [after [Hout [Hc _]]]]]]].
  rewrite Hout. eexists. split; [reflexivity|].
  assert (In c (before ++ [P_OPEN] ++ inside1 ++ [c] ++ inside2 ++ [P_CLOSE] ++ after))
    as Hi by (rewrite !in_app_iff; simpl; tauto).
  destruct Hc as [<- | <-]; [now left | now right].
Qed.

(** C4.  A line is plain exactly when its stripped form is not empty and
    begins with none of [#], [-], [*]; a plain line becomes a content line
    between the markers of a paragraph; the tag lines of the earlier stages
    are plain.  The paragraph stage, the one stage with an operation that
    can raise, returns for every input, and so does the pipeline, on any
    input and on its own output; there, every tag line of the first output
    is a content line of the second. *)
Theorem plain_lines_wrapped_pipeline_total :
  (forall line,
      is_plain line = true
      <-> exists c rest, Py.strip line = String c rest
                         /\ c <> "#"%char /\ c <> "-"%char /\ c <> "*"%char)
  /\ (forall a l b,
      is_plain l = true ->
      exists before inside1 c inside2 after,
        convert_markdown_paragraph_to_html (a ++ l :: b)
        = Some (before ++ [P_OPEN] ++ inside1 ++ [c] ++ inside2 ++ [P_CLOSE] ++ after)
        /\ (c = p_content l \/ c = drop_br (p_content l))
        /\ Forall (fun x => Py.startswith "    " x = true) (inside1 ++ inside2))
  /\ (is_plain UL_OPEN = true /\ is_plain UL_CLOSE = true
      /\ is_plain OL_OPEN = true /\ is_plain OL_CLOSE = true
      /\ is_plain P_OPEN = true /\ is_plain P_CLOSE = true
      /\ (forall x, is_plain (li_tag x) = true)
      /\ (forall i line, is_plain (heading_tag i line) = true))
  /\ (forall lines, exists out, convert_markdown_paragraph_to_html lines = Some out)
  /\ (forall lines, exists out1 out2,
      convert lines = Some out1
      /\ convert out1 = Some out2
      /\ forall l, In l out1 -> is_tag_line l = true ->
                   In (p_content l) out2 \/ In (drop_br (p_content l)) out2)
  /\ convert ["# T" +++ Py.nl; "- a" +++ Py.nl]
     = Some ["<p>" +++ Py.nl; "    <h1>T</h1><br/>" +++ Py.nl; "    <ul><br/>" +++ Py.nl;
             "    <li>a</li><br/>" +++ Py.nl; "    </ul>" +++ Py.nl; "</p>" +++ Py.nl]
  /\ convert ["<p>" +++ Py.nl; "    <h1>T</h1>" +++ Py.nl; "</p>" +++ Py.nl]
     = Some ["<p>" +++ Py.nl; "    <p><br/>" +++ Py.nl; "    <h1>T</h1><br/>" +++ Py.nl;
             "    </p>" +++ Py.nl; "</p>" +++ Py.nl].
Proof.
  split; [exact is_plain_iff|].
  split; [exact plain_line_wrapped|].
  split.
  { repeat split; try reflexivity.
    - intros x. apply tag_line_plain, tag_li.
    - intros i line. apply tag_line_plain, tag_heading. }
  split; [intros lines; eexists; apply para_grouper|].
  split; [|split; reflexivity].
  intros lines. rewrite convert_total.
  eexists. eexists. split; [reflexivity|].
  rewrite convert_total. split; [reflexivity|].
  intros l Hin Htag.
  destruct (convert_wraps_tag_line _ l Hin Htag) as [out [Hout Hc]].
  rewrite convert_total in Hout. injection Hout as <-. exact Hc.
Qed.

Lemma plain_lines_wrapped_pipeline_total_witness :
  exists before inside1 c inside2 after,
    convert_markdown_paragraph_to_html (["a" +++ Py.nl] ++ UL_OPEN :: ["b" +++ Py.nl])
    = Some (before ++ [P_OPEN] ++ inside1 ++ [c] ++ inside2 ++ [P_CLOSE] ++ after)
    /\ (c = p_content UL_OPEN \/ c = drop_br (p_content UL_OPEN))
    /\ Forall (fun x => Py.startswith "    " x = true) (inside1 ++ inside2).
Proof.
  apply (proj1 (proj2 plain_lines_wrapped_pipeline_total)). reflexivity.
Defined.

(* ------------------------------------------------------------------ *)
(** ** [main] *)
(* ------------------------------------------------------------------ *)

Section MainFacts.

Variable world : Type.
Variable path_exists : world -> string -> bool.
Variable read_text : world -> string -> option string.
Variable write_text : world -> string -> string -> world * bool.

Lemma main_too_few (argv : list string) (w : world) :
  List.length argv < 3 ->
  main path_exists read_text write_text argv w
  = mkRun (Exit 1) [USAGE +++ Py.nl] w.
Proof.
  intros H. unfold main. apply Nat.ltb_lt in H. now rewrite H.
Qed.

Lemma main_extra_ignored (prog markdown_file html_file extra : string)
      (rest : list string) (w : world) :
  main path_exists read_text write_text
       (prog :: markdown_file :: html_file :: extra :: rest) w
  = main path_exists read_text write_text [prog; markdown_file; html_file] w.
Proof. reflexivity. Qed.

Lemma main_missing (prog markdown_file html_file : string) (w : world) :
  path_exists w markdown_file = false ->
  main path_exists read_text write_text [prog; markdown_file; html_file] w
  = mkRun (Exit 1) [("Missing " +++ markdown_file) +++ Py.nl] w.
Proof. intros H. unfold main. cbn. now rewrite H. Qed.

Lemma main_success (prog markdown_file html_file : string) (w w' : world)
      (text : string) (converted_lines : list string) :
  path_exists w markdown_file = true ->
  read_text w markdown_file = Some text ->
  convert (Py.readlines text) = Some converted_lines ->
  write_text w html_file (Py.writelines converted_lines) = (w', true) ->
  main path_exists read_text write_text [prog; markdown_file; html_file] w
  = mkRun (Exit 0) [] w'.
Proof.
  intros He Hr Hc Hw. unfold main. cbn [List.length Nat.ltb Nat.leb nth_error].
  rewrite He. cbn [negb]. rewrite Hr. cbv zeta. rewrite Hc, Hw. reflexivity.
Qed.

End MainFacts.

(** C8, as stated, fails for three arguments and more: the script goes on
    with the first two, writes the output file and exits with status 0. *)
Lemma main_three_arguments_converts :
  let r := mem_main ["./markdown2html.py"; "README.md"; "README.html"; "extra"]
                    [("README.md", "# T" +++ Py.nl)] in
  run_end r = Exit 0
  /\ run_stderr r = []
  /\ mem_lookup (run_world r) "README.html"
     = Some ("<p>" +++ Py.nl +++ "    <h1>T</h1>" +++ Py.nl +++ "</p>" +++ Py.nl).
Proof. repeat split; reflexivity. Qed.

(** C8, amended.  With fewer than two positional arguments (none or one, in
    particular) the script prints the usage message on the error stream and
    exits with status 1, and the file system is as it was: no output file.
    With more than two, the ones after the second are ignored: the run is
    that of the first two. *)
Theorem main_usage_on_too_few_arguments :
  forall (world : Type) (path_exists : world -> string -> bool)
         (read_text : world -> string -> option string)
         (write_text : world -> string -> string -> world * bool)
         (w : world),
    (forall argv,
        List.length argv < 3 ->
        main path_exists read_text write_text argv w
        = mkRun (Exit 1) [USAGE +++ Py.nl] w)
    /\ (forall prog, main path_exists read_text write_text [prog] w
                     = mkRun (Exit 1) [USAGE +++ Py.nl] w)
    /\ (forall prog arg, main path_exists read_text write_text [prog; arg] w
                         = mkRun (Exit 1) [USAGE +++ Py.nl] w)
    /\ (forall prog markdown_file html_file extra rest,
        main path_exists read_text write_text
             (prog :: markdown_file :: html_file :: extra :: rest) w
        = main path_exists read_text write_text [prog; markdown_file; html_file] w).
Proof.
  intros world pe rt wt w.
  split; [intros argv H; now apply main_too_few|].
  split; [reflexivity|].
  split; [reflexivity|].
  intros. apply main_extra_ignored.
Qed.

Lemma main_usage_on_too_few_arguments_witness :
  mem_main ["./markdown2html.py"; "README.md"] [("README.md", "# T" +++ Py.nl)]
  = mkRun (Exit 1) [USAGE +++ Py.nl] [("README.md", "# T" +++ Py.nl)].
Proof.
  apply (proj1 (main_usage_on_too_few_arguments
                  mem_fs mem_exists mem_lookup mem_write
                  [("README.md", "# T" +++ Py.nl)])).
  simpl. lia.
Defined.

(** C9.  With two arguments and a source path that does not exist, the
    script prints ["Missing "] and the path on the error stream, exits with
    status 1 and leaves the file system as it was; when the source exists,
    is read, and the converted lines are written, it exits with status 0,
    on the file system the writing left. *)
Theorem main_missing_source_or_success :
  forall (world : Type) (path_exists : world -> string -> bool)
         (read_text : world -> string -> option string)
         (write_text : world -> string -> string -> world * bool)
         (prog markdown_file html_file : string) (w : world),
    (path_exists w markdown_file = false ->
     main path_exists read_text write_text [prog; markdown_file; html_file] w
     = mkRun (Exit 1) [("Missing " +++ markdown_file) +++ Py.nl] w)
    /\ (forall text converted_lines w',
        path_exists w markdown_file = true ->
        read_text w markdown_file = Some text ->
        convert (Py.readlines text) = Some converted_lines ->
        write_text w html_file (Py.writelines converted_lines) = (w', true) ->
        main path_exists read_text write_text [prog; markdown_file; html_file] w
        = mkRun (Exit 0) [] w').
Proof.
  intros world pe rt wt prog md html w.
  split; [apply main_missing | intros; now eapply main_success; eauto].
Qed.

Lemma main_missing_source_or_success_witness :
  mem_main ["./markdown2html.py"; "README.md"; "README.html"] []
  = mkRun (Exit 1) [("Missing " +++ "README.md") +++ Py.nl] []
  /\ mem_main ["./markdown2html.py"; "README.md"; "README.html"]
              [("README.md", "# T" +++ Py.nl)]
     = mkRun (Exit 0) []
             [("README.html",
               Py.writelines
                 ["<p>" +++ Py.nl; "    <h1>T</h1>" +++ Py.nl; "</p>" +++ Py.nl]);
              ("README.md", "# T" +++ Py.nl)].
Proof.
  split.
  - apply (proj1 (main_missing_source_or_success
                    mem_fs mem_exists mem_lookup mem_write
                    "./markdown2html.py" "README.md" "README.html" [])).
    reflexivity.
  - apply (proj2 (main_missing_source_or_success
                    mem_fs mem_exists mem_lookup mem_write
                    "./markdown2html.py" "README.md" "README.html"
                    [("README.md", "# T" +++ Py.nl)])
                 ("# T" +++ Py.nl)
                 ["<p>" +++ Py.nl; "    <h1>T</h1>" +++ Py.nl; "</p>" +++ Py.nl]);
      reflexivity.
Defined.

(* ------------------------------------------------------------------ *)
(** ** Lines as [readlines] yields them *)
(* ------------------------------------------------------------------ *)

Lemma no_lf_append (a b : string) : no_lf (a +++ b) = no_lf a && no_lf b.
Proof.
  induction a as [|c a IH]; simpl; [reflexivity|].
  now rewrite IH, andb_assoc.
Qed.

Lemma lf_only_last_cons (c d : ascii) (t : string) :
  lf_only_last (String c (String d t))
  = negb (Ascii.eqb c Py.LF) && lf_only_last (String d t).
Proof. reflexivity. Qed.

Lemma lf_only_last_tail (c : ascii) (s : string) :
  lf_only_last (String c s) = true -> lf_only_last s = true.
Proof.
  destruct s as [|d t]; [reflexivity|].
  rewrite lf_only_last_cons. intros H. now apply andb_true_iff in H.
Qed.

Lemma lf_only_last_lstrip (s : string) :
  lf_only_last s = true -> lf_only_last (Py.lstrip s) = true.
Proof.
  induction s as [|c s IH]; intros H; [reflexivity|].
  simpl Py.lstrip. destruct (Py.isspace c); [|exact H].
  apply IH. now apply lf_only_last_tail in H.
Qed.

Lemma lf_only_last_slice (n : nat) (s : string) :
  lf_only_last s = true -> lf_only_last (Py.slice_from n s) = true.
Proof.
  revert s. induction n as [|n IH]; intros s H; [exact H|].
  destruct s as [|c s]; [reflexivity|].
  simpl. apply IH. now apply lf_only_last_tail in H.
Qed.

Lemma nonspace_not_lf (c : ascii) :
  Py.isspace c = false -> Ascii.eqb c Py.LF = false.
Proof.
  intros H. destruct (Ascii.eqb c Py.LF) eqn:E; [|reflexivity].
  apply Ascii.eqb_eq in E. subst c. discriminate H.
Qed.

Lemma no_lf_rstrip (s : string) :
  lf_only_last s = true -> no_lf (Py.rstrip s) = true.
Proof.
  induction s as [|c s IH]; intros H; [reflexivity|].
  simpl Py.rstrip. destruct s as [|d t].
  - simpl. destruct (Py.isspace c) eqn:E; [reflexivity|].
    simpl. now rewrite (nonspace_not_lf c E).
  - rewrite lf_only_last_cons in H. apply andb_true_iff in H.
    destruct H as [Hc Ht]. specialize (IH Ht).
    destruct (Py.rstrip (String d t)) as [|e r].
    + destruct (Py.isspace c); [reflexivity|]. simpl. now rewrite Hc.
    + change (no_lf (String c (String e r)))
        with (negb (Ascii.eqb c Py.LF) && no_lf (String e r)).
      now rewrite Hc, IH.
Qed.

Lemma no_lf_strip (l : string) :
  lf_only_last l = true -> no_lf (Py.strip l) = true.
Proof. intros H. apply no_lf_rstrip. now apply lf_only_last_lstrip. Qed.

Lemma lf_only_last_line (s : string) :
  no_lf s = true -> lf_only_last (s +++ Py.nl) = true.
Proof.
  induction s as [|c s IH]; intros H; [reflexivity|].
  simpl in H. apply andb_true_iff in H. destruct H as [Hc Hs].
  specialize (IH Hs). simpl String.append.
  destruct (s +++ Py.nl) as [|d t] eqn:E; [reflexivity|].
  rewrite lf_only_last_cons, Hc. exact IH.
Qed.

Lemma lf_only_last_li (x : string) :
  no_lf x = true -> lf_only_last (li_tag x) = true.
Proof.
  intros H. unfold li_tag.
  replace ("   <li>" +++ x +++ "</li>" +++ Py.nl)
    with (("   <li>" +++ x +++ "</li>") +++ Py.nl)
    by (now rewrite !append_assoc).
  apply lf_only_last_line. rewrite !no_lf_append, H. reflexivity.
Qed.

Lemma lf_only_last_heading (i : nat) (line : string) :
  In i heading_levels ->
  lf_only_last line = true ->
  lf_only_last (heading_tag i line) = true.
Proof.
  intros Hi H. unfold heading_tag.
  set (t := Py.strip (Py.slice_from (i + 1) line)).
  assert (no_lf t = true) as Ht
      by (apply no_lf_strip; now apply lf_only_last_slice).
  replace ("<h" +++ Py.str_of_int i +++ ">" +++ t
           +++ "</h" +++ Py.str_of_int i +++ ">" +++ Py.nl)
    with (("<h" +++ Py.str_of_int i +++ ">" +++ t
           +++ "</h" +++ Py.str_of_int i +++ ">") +++ Py.nl)
    by (now rewrite !append_assoc).
  apply lf_only_last_line. rewrite !no_lf_append, Ht.
  unfold heading_levels in Hi. simpl in Hi.
  destruct Hi as [<-|[<-|[<-|[<-|[<-|[<-|[]]]]]]]; reflexivity.
Qed.

Lemma lf_only_last_headings (lines : list string) :
  Forall (fun l => lf_only_last l = true) lines ->
  Forall (fun l => lf_only_last l = true) (convert_markdown_heading_to_html lines).
Proof.
  intros H. rewrite heading_map. apply Forall_map.
  apply Forall_impl with (2 := H). intros l Hl.
  destruct (heading_loop_cases heading_levels l) as [[i [Hi [_ ->]]] | [_ ->]].
  - now apply lf_only_last_heading.
  - exact Hl.
Qed.

Lemma lf_only_last_grouper (marker open_marker close_marker : string) :
  lf_only_last open_marker = true ->
  lf_only_last close_marker = true ->
  forall lines b,
    Forall (fun l => lf_only_last l = true) lines ->
    Forall (fun l => lf_only_last l = true)
           (list_grouper_from marker open_marker close_marker b lines).
Proof.
  intros Ho Hc lines. induction lines as [|l lines IH]; intros b H; simpl.
  - destruct b; repeat constructor. exact Hc.
  - apply Forall_cons_iff in H. destruct H as [Hl H].
    destruct (Py.startswith marker l); apply Forall_app; split.
    + destruct b; repeat constructor. exact Ho.
    + constructor; [|now apply IH].
      apply lf_only_last_li, no_lf_strip. now apply lf_only_last_slice.
    + destruct b; repeat constructor. exact Hc.
    + constructor; [exact Hl | now apply IH].
Qed.

Lemma lf_only_last_readlines (text : string) :
  Forall (fun l => lf_only_last l = true) (Py.readlines text).
Proof.
  induction text as [|c text IH]; simpl; [constructor|].
  destruct (Ascii.eqb c Py.LF) eqn:E.
  - constructor; [reflexivity | exact IH].
  - destruct (Py.readlines text) as [|l lines]; [repeat constructor|].
    apply Forall_cons_iff in IH. destruct IH as [Hl IH].
    constructor; [|exact IH].
    destruct l as [|d t]; [reflexivity|].
    rewrite lf_only_last_cons, E. exact Hl.
Qed.

(** No text of a line that reaches the paragraph stage has a line feed
    inside. *)
Lemma paragraph_input_no_lf (text : string) :
  Forall (fun l => no_lf (Py.strip l) = true) (before_paragraphs (Py.readlines text)).
Proof.
  unfold before_paragraphs.
  apply Forall_impl with (P := fun l => lf_only_last l = true);
    [intros l; apply no_lf_strip|].
  rewrite ol_grouper, ul_grouper. unfold list_grouper.
  apply lf_only_last_grouper; try reflexivity.
  apply lf_only_last_grouper; try reflexivity.
  apply lf_only_last_headings, lf_only_last_readlines.
Qed.

(** C10.  Closing a paragraph rewrites the last emitted line only, and
    leaves the lines before it as they are; on a content line whose text has
    no line feed inside, the rewriting removes the appended break and
    nothing else, also when the text itself ends in ["<br/>"]: the last
    content line of the closed paragraph is the indentation, the stripped
    text and a line feed.  In a run of the script no text of a line that
    reaches the paragraph stage has a line feed inside. *)
Theorem close_rewrites_last_line_only :
  (forall html_lines c,
      close_paragraph (html_lines ++ [c]) = Some (html_lines ++ [drop_br c; P_CLOSE]))
  /\ (forall s, no_lf s = true -> drop_br (p_line s) = "    " +++ s +++ Py.nl)
  /\ (forall y, no_lf y = true ->
                drop_br (p_line (y +++ BR)) = "    " +++ (y +++ BR) +++ Py.nl)
  /\ (forall pre run post,
      is_plain (last pre EmptyString) = false ->
      run <> [] ->
      Forall (fun l => is_plain l = true) run ->
      is_plain (hd EmptyString post) = false ->
      no_lf (Py.strip (last run EmptyString)) = true ->
      exists out_pre out_post,
        convert_markdown_paragraph_to_html pre = Some out_pre
        /\ convert_markdown_paragraph_to_html post = Some out_post
        /\ convert_markdown_paragraph_to_html (pre ++ run ++ post)
           = Some (out_pre
                   ++ [P_OPEN] ++ map p_content (removelast run)
                   ++ ["    " +++ Py.strip (last run EmptyString) +++ Py.nl; P_CLOSE]
                   ++ out_post))
  /\ (forall text,
      convert (Py.readlines text)
      = convert_markdown_paragraph_to_html (before_paragraphs (Py.readlines text))
      /\ Forall (fun l => no_lf (Py.strip l) = true)
                (before_paragraphs (Py.readlines text))).
Proof.
  split; [exact close_paragraph_snoc|].
  split; [exact closed_line_no_lf|].
  split; [|split; [|intros text; split; [reflexivity | apply paragraph_input_no_lf]]].
  - intros y Hy. apply closed_line_no_lf.
    induction y as [|c y IH]; [reflexivity|].
    simpl in *. apply andb_true_iff in Hy. destruct Hy as [-> Hy].
    now rewrite IH.
  - intros pre run post Hpre Hne Hrun Hpost Hlf.
    destruct (paragraph_block pre run post Hpre Hne Hrun Hpost)
      as [out_pre [out_post [H1 [H2 H3]]]].
    exists out_pre, out_post. repeat split; try assumption.
    rewrite H3. unfold p_content at 2. now rewrite closed_line_no_lf.
Qed.

Lemma close_rewrites_last_line_only_witness :
  drop_br (p_line "x<br/>") = "    " +++ "x<br/>" +++ Py.nl
  /\ exists out_pre out_post,
      convert_markdown_paragraph_to_html [Py.nl] = Some out_pre
      /\ convert_markdown_paragraph_to_html [] = Some out_post
      /\ convert_markdown_paragraph_to_html
           ([Py.nl] ++ ["a" +++ Py.nl; "b<br/>" +++ Py.nl] ++ [])
         = Some (out_pre
                 ++ [P_OPEN] ++ map p_content (removelast ["a" +++ Py.nl; "b<br/>" +++ Py.nl])
                 ++ ["    " +++ Py.strip (last ["a" +++ Py.nl; "b<br/>" +++ Py.nl] EmptyString)
                       +++ Py.nl; P_CLOSE]
                 ++ out_post).
Proof.
  split.
  - apply (proj1 (proj2 close_rewrites_last_line_only)). reflexivity.
  - apply (proj1 (proj2 (proj2 (proj2 close_rewrites_last_line_only))));
      [reflexivity | discriminate | repeat constructor | reflexivity | reflexivity].
Defined.


(* ================================================================== *)
(** * Further properties of the stages *)
(* ================================================================== *)

(* ------------------------------------------------------------------ *)
(** ** Headings *)
(* ------------------------------------------------------------------ *)

(** The heading stage works line by line: the output has as many lines as
    the input, its [n]-th line is the rewriting of the [n]-th input line
    alone, and the stage goes through a concatenation. *)
Theorem heading_line_by_line (a b : list string) (n : nat) :
  List.length (convert_markdown_heading_to_html a) = List.length a
  /\ nth_error (convert_markdown_heading_to_html a) n
     = option_map (heading_loop heading_levels) (nth_error a n)
  /\ convert_markdown_heading_to_html (a ++ b)
     = convert_markdown_heading_to_html a ++ convert_markdown_heading_to_html b.
Proof.
  rewrite !heading_map. split; [apply length_map|].
  split; [apply nth_error_map | apply map_app].
Qed.

Lemma heading_loop_tag (i : nat) (line : string) :
  heading_loop heading_levels (heading_tag i line) = heading_tag i line.
Proof.
  apply heading_loop_nomatch.
  apply (tag_line_unmatched (heading_tag i line) (tag_heading i line)).
Qed.

(** The heading stage changes nothing in its own output. *)
Theorem heading_idempotent (lines : list string) :
  convert_markdown_heading_to_html (convert_markdown_heading_to_html lines)
  = convert_markdown_heading_to_html lines.
Proof.
  rewrite !heading_map, map_map. apply map_ext. intros l.
  destruct (heading_loop_cases heading_levels l) as [[i [_ [_ Hl]]] | [_ Hl]].
  - rewrite Hl. apply heading_loop_tag.
  - now rewrite !Hl.
Qed.

Lemma heading_level_unique (i j : nat) (l : string) :
  Py.startswith (Py.str_mul "#" i +++ " ") l = true ->
  Py.startswith (Py.str_mul "#" j +++ " ") l = true ->
  i = j.
Proof.
  revert j l.
  induction i as [|i IH]; intros [|j] [|c l];
    cbn [Py.str_mul String.append Py.startswith];
    try discriminate; try reflexivity.
  - intros H1 H2. apply andb_true_iff in H1, H2.
    destruct H1 as [H1 _], H2 as [H2 _].
    apply Ascii.eqb_eq in H1, H2. subst c. discriminate.
  - intros H1 H2. apply andb_true_iff in H1, H2.
    destruct H1 as [H1 _], H2 as [H2 _].
    apply Ascii.eqb_eq in H1, H2. subst c. discriminate.
  - intros H1 H2. apply andb_true_iff in H1, H2.
    destruct H1 as [_ H1], H2 as [_ H2].
    f_equal. exact (IH j l H1 H2).
Qed.

(** A line matches at most one heading level, so the order in which the
    loop tries the levels does not matter: any list with the same levels
    gives the same line. *)
Theorem heading_level_order_irrelevant (levels : list nat) (line : string) :
  (forall i, In i levels <-> In i heading_levels) ->
  heading_loop levels line = heading_loop heading_levels line.
Proof.
  intros Hsame.
  destruct (heading_loop_cases levels line) as [[i [Hi [Hm ->]]] | [Hno ->]];
    destruct (heading_loop_cases heading_levels line)
    as [[j [Hj [Hm' ->]]] | [Hno' ->]].
  - now rewrite (heading_level_unique i j line Hm Hm').
  - apply Hsame in Hi. rewrite (Hno' i Hi) in Hm. discriminate.
  - apply Hsame in Hj. rewrite (Hno j Hj) in Hm'. discriminate.
  - reflexivity.
Qed.

Lemma heading_level_order_irrelevant_witness :
  heading_loop [1; 2; 3; 4; 5; 6] ("## b" +++ Py.nl)
  = heading_loop heading_levels ("## b" +++ Py.nl).
Proof.
  apply heading_level_order_irrelevant.
  intros i. unfold heading_levels. simpl. intuition.
Defined.

(* ------------------------------------------------------------------ *)
(** ** List groupers *)
(* ------------------------------------------------------------------ *)

Lemma grouper_cons_item (marker open_marker close_marker : string) (b : bool)
      (l : string) (r : list string) :
  Py.startswith marker l = true ->
  list_grouper_from marker open_marker close_marker b (l :: r)
  = (if b then [] else [open_marker])
    ++ item_of marker l :: list_grouper_from marker open_marker close_marker true r.
Proof. intros H. cbn [list_grouper_from]. now rewrite H. Qed.

Lemma grouper_cons_other (marker open_marker close_marker : string) (b : bool)
      (l : string) (r : list string) :
  Py.startswith marker l = false ->
  list_grouper_from marker open_marker close_marker b (l :: r)
  = (if b then [close_marker] else [])
    ++ l :: list_grouper_from marker open_marker close_marker false r.
Proof. intros H. cbn [list_grouper_from]. now rewrite H. Qed.

(** The output of a grouper whose markers and items do not start with its
    marker has no line that starts with it. *)
Lemma grouper_output_unmarked (marker open_marker close_marker : string) :
  Py.startswith marker open_marker = false ->
  Py.startswith marker close_marker = false ->
  (forall x, Py.startswith marker (li_tag x) = false) ->
  forall lines b,
    Forall (fun l => Py.startswith marker l = false)
           (list_grouper_from marker open_marker close_marker b lines).
Proof.
  intros Ho Hc Hi lines. induction lines as [|l lines IH]; intros b; simpl.
  - destruct b; repeat constructor. exact Hc.
  - destruct (Py.startswith marker l) eqn:E; apply Forall_app; split.
    + destruct b; repeat constructor. exact Ho.
    + constructor; [apply Hi | apply IH].
    + destruct b; repeat constructor. exact Hc.
    + constructor; [exact E | apply IH].
Qed.

Lemma list_groupers_consume_markers_aux (lines : list string) :
  Forall (fun l => Py.startswith "- " l = false)
         (convert_markdown_ul_list_to_html lines)
  /\ Forall (fun l => Py.startswith "* " l = false)
            (convert_markdown_ol_list_to_html lines).
Proof.
  split.
  - rewrite ul_grouper. apply grouper_output_unmarked; reflexivity.
  - rewrite ol_grouper. apply grouper_output_unmarked; reflexivity.
Qed.

(** No line of the output of the unordered-list grouper starts with ["- "],
    and none of the output of the ordered-list grouper with ["* "]: every
    source line of a list is consumed.  Each grouper therefore leaves its
    own output as it is. *)
Theorem list_groupers_consume_markers (lines : list string) :
  Forall (fun l => Py.startswith "- " l = false)
         (convert_markdown_ul_list_to_html lines)
  /\ Forall (fun l => Py.startswith "* " l = false)
            (convert_markdown_ol_list_to_html lines)
  /\ convert_markdown_ul_list_to_html (convert_markdown_ul_list_to_html lines)
     = convert_markdown_ul_list_to_html lines
  /\ convert_markdown_ol_list_to_html (convert_markdown_ol_list_to_html lines)
     = convert_markdown_ol_list_to_html lines.
Proof.
  destruct (list_groupers_consume_markers_aux lines) as [Hu Ho].
  split; [exact Hu | split; [exact Ho | split]].
  - rewrite (ul_grouper (convert_markdown_ul_list_to_html lines)).
    now apply grouper_no_match.
  - rewrite (ol_grouper (convert_markdown_ol_list_to_html lines)).
    now apply grouper_no_match.
Qed.

Lemma markers_exclusive (l : string) :
  Py.startswith "- " l = true -> Py.startswith "* " l = false.
Proof.
  destruct l as [|c l]; [discriminate|].
  cbn [Py.startswith]. intros H. apply andb_true_iff in H. destruct H as [H _].
  apply Ascii.eqb_eq in H. subst c. reflexivity.
Qed.

Lemma ol_after_ul (lines : list string) :
  forall st,
    list_grouper_from "* " OL_OPEN OL_CLOSE (in_ol st)
      (list_grouper_from "- " UL_OPEN UL_CLOSE (in_ul st) lines)
    = both_groupers_from st lines.
Proof.
  induction lines as [|l lines IH]; intros st.
  - destruct st; reflexivity.
  - cbn [both_groupers_from].
    destruct (Py.startswith "- " l) eqn:Eu.
    + rewrite grouper_cons_item by exact Eu.
      destruct st; cbn [in_ul in_ol app close_block];
        rewrite ?(grouper_cons_other "* " OL_OPEN OL_CLOSE _ UL_OPEN) by reflexivity;
        cbn [app];
        rewrite (grouper_cons_other "* " OL_OPEN OL_CLOSE _ (item_of "- " l))
          by reflexivity;
        cbn [app]; rewrite <- (IH InUl); reflexivity.
    + rewrite grouper_cons_other by exact Eu.
      destruct (Py.startswith "* " l) eqn:Eo.
      * destruct st; cbn [in_ul in_ol app close_block];
          rewrite ?(grouper_cons_other "* " OL_OPEN OL_CLOSE _ UL_CLOSE) by reflexivity;
          cbn [app];
          rewrite (grouper_cons_item "* " OL_OPEN OL_CLOSE _ l) by exact Eo;
          cbn [app]; rewrite <- (IH InOl); reflexivity.
      * destruct st; cbn [in_ul in_ol app close_block];
          rewrite ?(grouper_cons_other "* " OL_OPEN OL_CLOSE _ UL_CLOSE) by reflexivity;
          cbn [app];
          rewrite (grouper_cons_other "* " OL_OPEN OL_CLOSE _ l) by exact Eo;
          cbn [app]; rewrite <- (IH Outside); reflexivity.
Qed.

Lemma ul_after_ol (lines : list string) :
  forall st,
    list_grouper_from "- " UL_OPEN UL_CLOSE (in_ul st)
      (list_grouper_from "* " OL_OPEN OL_CLOSE (in_ol st) lines)
    = both_groupers_from st lines.
Proof.
  induction lines as [|l lines IH]; intros st.
  - destruct st; reflexivity.
  - cbn [both_groupers_from].
    destruct (Py.startswith "- " l) eqn:Eu.
    + rewrite (grouper_cons_other "* " OL_OPEN OL_CLOSE _ l)
        by (now apply markers_exclusive).
      destruct st; cbn [in_ul in_ol app close_block];
        rewrite ?(grouper_cons_other "- " UL_OPEN UL_CLOSE _ OL_CLOSE) by reflexivity;
        cbn [app];
        rewrite (grouper_cons_item "- " UL_OPEN UL_CLOSE _ l) by exact Eu;
        cbn [app]; rewrite <- (IH InUl); reflexivity.
    + destruct (Py.startswith "* " l) eqn:Eo.
      * rewrite (grouper_cons_item "* " OL_OPEN OL_CLOSE _ l) by exact Eo.
        destruct st; cbn [in_ul in_ol app close_block];
          rewrite ?(grouper_cons_other "- " UL_OPEN UL_CLOSE _ OL_OPEN) by reflexivity;
          cbn [app];
          rewrite (grouper_cons_other "- " UL_OPEN UL_CLOSE _ (item_of "* " l))
            by reflexivity;
          cbn [app]; rewrite <- (IH InOl); reflexivity.
      * rewrite (grouper_cons_other "* " OL_OPEN OL_CLOSE _ l) by exact Eo.
        destruct st; cbn [in_ul in_ol app close_block];
          rewrite ?(grouper_cons_other "- " UL_OPEN UL_CLOSE _ OL_CLOSE) by reflexivity;
          cbn [app];
          rewrite (grouper_cons_other "- " UL_OPEN UL_CLOSE _ l) by exact Eu;
          cbn [app]; rewrite <- (IH Outside); reflexivity.
Qed.

(** The two list groupers can be run in either order: both orders give the
    output of one pass that keeps track of the list it is in. *)
Theorem list_groupers_commute (lines : list string) :
  convert_markdown_ol_list_to_html (convert_markdown_ul_list_to_html lines)
  = convert_markdown_ul_list_to_html (convert_markdown_ol_list_to_html lines)
  /\ convert_markdown_ol_list_to_html (convert_markdown_ul_list_to_html lines)
     = both_groupers_from Outside lines.
Proof.
  rewrite !ol_grouper, !ul_grouper. unfold list_grouper.
  pose proof (ol_after_ul lines Outside) as H1.
  pose proof (ul_after_ol lines Outside) as H2.
  cbn [in_ol in_ul] in H1, H2. rewrite H1, H2.
  split; reflexivity.
Qed.

Lemma no_heading_head (c : ascii) (t : string) :
  c <> "#"%char -> no_heading (String c t).
Proof.
  intros Hc i Hi. unfold heading_levels in Hi. simpl in Hi.
  destruct Hi as [<-|[<-|[<-|[<-|[<-|[<-|[]]]]]]];
    apply startswith_head_mismatch; congruence.
Qed.

Lemma heading_match_head (i : nat) (l : string) :
  In i heading_levels ->
  Py.startswith (Py.str_mul "#" i +++ " ") l = true ->
  exists t, l = String "#" t.
Proof.
  intros Hi Hm. apply startswith_iff in Hm. destruct Hm as [rest ->].
  unfold heading_levels in Hi. simpl in Hi.
  destruct Hi as [<-|[<-|[<-|[<-|[<-|[<-|[]]]]]]]; eexists; reflexivity.
Qed.

Section HeadingAndGrouper.

Variables marker open_marker close_marker : string.

Hypothesis marker_not_hash :
  forall t, Py.startswith marker (String "#" t) = false.
Hypothesis marker_head :
  forall l, Py.startswith marker l = true -> exists c t, l = String c t /\ c <> "#"%char.
Hypothesis marker_not_tag :
  forall l, is_tag_line l = true -> Py.startswith marker l = false.
Hypothesis open_is_tag : is_tag_line open_marker = true.
Hypothesis close_is_tag : is_tag_line close_marker = true.

Lemma heading_keeps_marked (l : string) :
  Py.startswith marker l = true -> heading_loop heading_levels l = l.
Proof.
  intros H. destruct (marker_head l H) as [c [t [-> Hc]]].
  apply heading_loop_nomatch. now apply no_heading_head.
Qed.

Lemma heading_keeps_marking (l : string) :
  Py.startswith marker (heading_loop heading_levels l) = Py.startswith marker l.
Proof.
  destruct (heading_loop_cases heading_levels l) as [[i [Hi [Hm ->]]] | [_ ->]];
    [|reflexivity].
  rewrite (marker_not_tag _ (tag_heading i l)).
  destruct (heading_match_head i l Hi Hm) as [t ->].
  symmetry. apply marker_not_hash.
Qed.

Lemma heading_keeps_tag (l : string) :
  is_tag_line l = true -> heading_loop heading_levels l = l.
Proof.
  intros H. apply heading_loop_nomatch. now apply tag_line_unmatched.
Qed.

Lemma grouper_map_heading (lines : list string) :
  forall b,
    list_grouper_from marker open_marker close_marker b
                      (map (heading_loop heading_levels) lines)
    = map (heading_loop heading_levels)
          (list_grouper_from marker open_marker close_marker b lines).
Proof.
  induction lines as [|l lines IH]; intros b; cbn [map].
  - destruct b; cbn [list_grouper_from map]; [|reflexivity].
    now rewrite (heading_keeps_tag close_marker close_is_tag).
  - destruct (Py.startswith marker l) eqn:E.
    + rewrite (grouper_cons_item _ _ _ _ l) by exact E.
      rewrite grouper_cons_item by (now rewrite heading_keeps_marking).
      rewrite map_app. cbn [map]. rewrite <- IH.
      rewrite (heading_keeps_tag (item_of marker l)) by apply tag_li.
      rewrite (heading_keeps_marked l E).
      destruct b; cbn [map]; [reflexivity|].
      now rewrite (heading_keeps_tag open_marker open_is_tag).
    + rewrite (grouper_cons_other _ _ _ _ l) by exact E.
      rewrite grouper_cons_other by (now rewrite heading_keeps_marking).
      rewrite map_app. cbn [map]. rewrite <- IH.
      destruct b; cbn [map]; [|reflexivity].
      now rewrite (heading_keeps_tag close_marker close_is_tag).
Qed.

End HeadingAndGrouper.

Lemma dash_head (l : string) :
  Py.startswith "- " l = true -> exists c t, l = String c t /\ c <> "#"%char.
Proof.
  destruct l as [|c t]; [discriminate|]. cbn [Py.startswith].
  intros H. apply andb_true_iff in H. destruct H as [H _].
  apply Ascii.eqb_eq in H. subst c. exists "-"%char, t. split; [reflexivity | discriminate].
Qed.

Lemma star_head (l : string) :
  Py.startswith "* " l = true -> exists c t, l = String c t /\ c <> "#"%char.
Proof.
  destruct l as [|c t]; [discriminate|]. cbn [Py.startswith].
  intros H. apply andb_true_iff in H. destruct H as [H _].
  apply Ascii.eqb_eq in H. subst c. exists "*"%char, t. split; [reflexivity | discriminate].
Qed.

(** The heading stage can be run before or after each list grouper: the
    result is the same. *)
Theorem heading_commutes_with_list_groupers (lines : list string) :
  convert_markdown_ul_list_to_html (convert_markdown_heading_to_html lines)
  = convert_markdown_heading_to_html (convert_markdown_ul_list_to_html lines)
  /\ convert_markdown_ol_list_to_html (convert_markdown_heading_to_html lines)
     = convert_markdown_heading_to_html (convert_markdown_ol_list_to_html lines).
Proof.
  rewrite !heading_map, !ul_grouper, !ol_grouper. unfold list_grouper. split.
  - apply grouper_map_heading; try reflexivity.
    + exact dash_head.
    + intros l H. apply (tag_line_unmatched l H).
  - apply grouper_map_heading; try reflexivity.
    + exact star_head.
    + intros l H. apply (tag_line_unmatched l H).
Qed.

(* ------------------------------------------------------------------ *)
(** ** Paragraphs *)
(* ------------------------------------------------------------------ *)

Lemma para_trace_render (lines : list string) :
  render_paragraphs (para_trace false lines) = para_from None lines
  /\ forall l0, render_paragraphs (Item l0 :: para_trace true lines)
                = para_from (Some (p_content l0)) lines.
Proof.
  induction lines as [|l lines [IH1 IH2]].
  - split; reflexivity.
  - cbn [para_trace para_from]. destruct (is_plain l).
    + split.
      * cbn [app]. change (render_paragraphs (Opening :: ?r))
          with (P_OPEN :: render_paragraphs r). now rewrite IH2.
      * intros l0. cbn [app].
        change (render_paragraphs (Item l0 :: Item l :: ?r))
          with (p_content l0 :: render_paragraphs (Item l :: r)).
        now rewrite IH2.
    + split.
      * cbn [app]. change (render_paragraphs (Passed l :: ?r))
          with (l :: render_paragraphs r). now rewrite IH1.
      * intros l0. cbn [app].
        change (render_paragraphs (Item l0 :: Closing :: Passed l :: ?r))
          with (drop_br (p_content l0) :: P_CLOSE :: l :: render_paragraphs r).
        now rewrite IH1.
Qed.

Lemma para_trace_origin (b : bool) (lines : list string) :
  flat_map origin (para_trace b lines) = lines.
Proof.
  revert b. induction lines as [|l lines IH]; intros b; simpl.
  - now destruct b.
  - destruct (is_plain l); destruct b; simpl; now rewrite IH.
Qed.

Lemma para_trace_classified (b : bool) (lines : list string) :
  forallb para_classified (para_trace b lines) = true.
Proof.
  revert b. induction lines as [|l lines IH]; intros b; simpl.
  - now destruct b.
  - destruct (is_plain l) eqn:E; destruct b; simpl; rewrite ?E, IH; reflexivity.
Qed.

Lemma para_trace_balanced (b : bool) (lines : list string) :
  balanced b (para_trace b lines) = true.
Proof.
  revert b. induction lines as [|l lines IH]; intros b; simpl.
  - now destruct b.
  - destruct (is_plain l) eqn:E; destruct b; simpl.
    + apply IH.
    + apply IH.
    + rewrite IH. destruct lines as [|l' lines]; simpl; [reflexivity|].
      now destruct (is_plain l').
    + apply IH.
Qed.

(** The paragraph markers are balanced.  Read by origin, the output is the
    input, every line in its place (plain lines as content lines, the others
    as they are), with markers added so that every ["<p>\n"] is followed by
    content lines and then by one ["</p>\n"], lines that are not plain lie
    outside paragraphs, and the output ends outside a paragraph. *)
Theorem paragraphs_balanced (lines : list string) :
  exists es,
    convert_markdown_paragraph_to_html lines = Some (render_paragraphs es)
    /\ flat_map origin es = lines
    /\ forallb para_classified es = true
    /\ balanced false es = true.
Proof.
  exists (para_trace false lines).
  rewrite para_grouper, (proj1 (para_trace_render lines)).
  split; [reflexivity|].
  split; [apply para_trace_origin|].
  split; [apply para_trace_classified | apply para_trace_balanced].
Qed.

(* ------------------------------------------------------------------ *)
(** ** The pipeline on its own output *)
(* ------------------------------------------------------------------ *)

Lemma unmarked_iff (l : string) :
  unmarked l = true
  <-> no_heading l /\ Py.startswith "- " l = false /\ Py.startswith "* " l = false.
Proof.
  unfold unmarked. rewrite !andb_true_iff, !negb_true_iff, forallb_forall.
  split.
  - intros [[H1 H2] H3]. repeat split; try assumption.
    intros i Hi. specialize (H1 i Hi). now apply negb_true_iff in H1.
  - intros [H1 [H2 H3]]. repeat split; try assumption.
    intros i Hi. apply negb_true_iff. now apply H1.
Qed.

Lemma tag_line_is_unmarked (l : string) : is_tag_line l = true -> unmarked l = true.
Proof. intros H. apply unmarked_iff. now apply tag_line_unmatched. Qed.

Lemma indented_is_unmarked (l : string) :
  Py.startswith "    " l = true -> unmarked l = true.
Proof.
  intros H. apply startswith_iff in H. destruct H as [rest ->].
  apply unmarked_iff. split; [|split; reflexivity].
  apply no_heading_head. discriminate.
Qed.

Lemma grouper_Forall (P : string -> Prop) (marker open_marker close_marker : string) :
  P open_marker -> P close_marker -> (forall x, P (li_tag x)) ->
  forall lines b,
    Forall P lines ->
    Forall P (list_grouper_from marker open_marker close_marker b lines).
Proof.
  intros Ho Hc Hi lines. induction lines as [|l lines IH]; intros b H; simpl.
  - destruct b; repeat constructor. exact Hc.
  - apply Forall_cons_iff in H. destruct H as [Hl H].
    destruct (Py.startswith marker l); apply Forall_app; split.
    + destruct b; repeat constructor. exact Ho.
    + constructor; [apply Hi | now apply IH].
    + destruct b; repeat constructor. exact Hc.
    + constructor; [exact Hl | now apply IH].
Qed.

Lemma heading_output_no_heading (lines : list string) :
  Forall no_heading (convert_markdown_heading_to_html lines).
Proof.
  rewrite heading_map. apply Forall_map, Forall_forall. intros l _.
  destruct (heading_loop_cases heading_levels l) as [[i [_ [_ ->]]] | [Hno ->]].
  - apply (tag_line_unmatched _ (tag_heading i l)).
  - exact Hno.
Qed.

Lemma no_heading_li (x : string) : no_heading (li_tag x).
Proof. apply (tag_line_unmatched _ (tag_li x)). Qed.

(** After the first three stages no line matches any of their patterns. *)
Lemma before_paragraphs_unmarked (lines : list string) :
  Forall (fun l => unmarked l = true) (before_paragraphs lines).
Proof.
  unfold before_paragraphs.
  set (h := convert_markdown_heading_to_html lines).
  assert (Forall no_heading h) as Hh by apply heading_output_no_heading.
  assert (Forall (fun l => no_heading l /\ Py.startswith "- " l = false)
                 (convert_markdown_ul_list_to_html h)) as Hu.
  { apply Forall_and.
    - rewrite ul_grouper. apply grouper_Forall; try assumption.
      + apply (tag_line_unmatched UL_OPEN eq_refl).
      + apply (tag_line_unmatched UL_CLOSE eq_refl).
      + apply no_heading_li.
    - apply (proj1 (list_groupers_consume_markers_aux h)). }
  apply Forall_impl with
    (P := fun l => (no_heading l /\ Py.startswith "- " l = false)
                   /\ Py.startswith "* " l = false).
  { intros l [[H1 H2] H3]. now apply unmarked_iff. }
  apply Forall_and.
  - rewrite ol_grouper. apply grouper_Forall; try assumption.
    + split; [apply (tag_line_unmatched OL_OPEN eq_refl) | reflexivity].
    + split; [apply (tag_line_unmatched OL_CLOSE eq_refl) | reflexivity].
    + intros x. split; [apply no_heading_li | reflexivity].
  - apply (proj2 (list_groupers_consume_markers_aux
                    (convert_markdown_ul_list_to_html h))).
Qed.

Lemma para_from_unmarked (lines : list string) :
  forall pending,
    match pending with
    | Some c => unmarked c = true /\ unmarked (drop_br c) = true
    | None => True
    end ->
    Forall (fun l => unmarked l = true) lines ->
    Forall (fun l => unmarked l = true) (para_from pending lines).
Proof.
  induction lines as [|l lines IH]; intros pending Hp H; cbn [para_from].
  - destruct pending as [c|]; [|constructor].
    destruct Hp as [_ Hd]. repeat constructor. exact Hd.
  - apply Forall_cons_iff in H. destruct H as [Hl H].
    destruct (is_plain l).
    + constructor.
      * destruct pending as [c|]; [apply Hp | reflexivity].
      * apply IH; [|exact H]. split; apply indented_is_unmarked;
          [apply p_content_indented | apply closed_line_indented].
    + apply Forall_app. split.
      * destruct pending as [c|]; [|constructor].
        destruct Hp as [_ Hd]. repeat constructor. exact Hd.
      * constructor; [exact Hl | now apply IH].
Qed.

Lemma unmarked_fixed (lines : list string) :
  Forall (fun l => unmarked l = true) lines -> before_paragraphs lines = lines.
Proof.
  intros H. unfold before_paragraphs.
  assert (convert_markdown_heading_to_html lines = lines) as ->.
  { rewrite heading_map. rewrite <- (map_id lines) at 2.
    apply map_ext_in. intros l Hl. rewrite Forall_forall in H.
    apply heading_loop_nomatch. now apply (unmarked_iff l), H. }
  assert (convert_markdown_ul_list_to_html lines = lines) as ->.
  { rewrite ul_grouper. apply grouper_no_match.
    apply Forall_impl with (2 := H). intros l Hl. now apply unmarked_iff in Hl. }
  rewrite ol_grouper. apply grouper_no_match.
  apply Forall_impl with (2 := H). intros l Hl. now apply unmarked_iff in Hl.
Qed.

(** The output of the pipeline holds no line that the first three stages
    would rewrite: they return it as it is, and running the pipeline on its
    own output is running the paragraph stage on it. *)
Theorem pipeline_output_fixed_by_first_stages (lines out : list string) :
  convert lines = Some out ->
  Forall (fun l => unmarked l = true) out
  /\ before_paragraphs out = out
  /\ convert out = convert_markdown_paragraph_to_html out.
Proof.
  intros H. rewrite convert_total in H. injection H as <-.
  assert (Forall (fun l => unmarked l = true)
                 (para_from None
                    (convert_markdown_ol_list_to_html
                       (convert_markdown_ul_list_to_html
                          (convert_markdown_heading_to_html lines))))) as Hout.
  { apply para_from_unmarked; [exact I|]. apply before_paragraphs_unmarked. }
  split; [exact Hout|].
  pose proof (unmarked_fixed _ Hout) as Hfix.
  split; [exact Hfix|].
  unfold convert. unfold before_paragraphs in Hfix. now rewrite Hfix.
Qed.

Lemma pipeline_output_fixed_by_first_stages_witness :
  Forall (fun l => unmarked l = true)
         ["<p>" +++ Py.nl; "    <h1>T</h1>" +++ Py.nl; "</p>" +++ Py.nl]
  /\ before_paragraphs ["<p>" +++ Py.nl; "    <h1>T</h1>" +++ Py.nl; "</p>" +++ Py.nl]
     = ["<p>" +++ Py.nl; "    <h1>T</h1>" +++ Py.nl; "</p>" +++ Py.nl]
  /\ convert ["<p>" +++ Py.nl; "    <h1>T</h1>" +++ Py.nl; "</p>" +++ Py.nl]
     = convert_markdown_paragraph_to_html
         ["<p>" +++ Py.nl; "    <h1>T</h1>" +++ Py.nl; "</p>" +++ Py.nl].
Proof.
  apply (pipeline_output_fixed_by_first_stages ["# T" +++ Py.nl]). reflexivity.
Defined.

(** Lines that no stage matches (blank lines, lines such as ["#x"] or
    [" - y"]) make an input that the pipeline returns as it is. *)
Theorem pipeline_keeps_unmatched_input (lines : list string) :
  Forall (fun l => unmarked l = true /\ is_plain l = false) lines ->
  convert lines = Some lines.
Proof.
  intros H. rewrite convert_total.
  assert (Forall (fun l => unmarked l = true) lines) as Hu
      by (apply Forall_impl with (2 := H); now intros l [Hl _]).
  assert (Forall (fun l => is_plain l = false) lines) as Hp
      by (apply Forall_impl with (2 := H); now intros l [_ Hl]).
  pose proof (unmarked_fixed lines Hu) as Hfix.
  unfold before_paragraphs in Hfix. rewrite Hfix.
  now rewrite para_no_plain.
Qed.

Lemma pipeline_keeps_unmatched_input_witness :
  convert [Py.nl; "#x" +++ Py.nl; " - y" +++ Py.nl; "*z"]
  = Some [Py.nl; "#x" +++ Py.nl; " - y" +++ Py.nl; "*z"].
Proof.
  apply pipeline_keeps_unmatched_input. repeat constructor.
Defined.

(* ------------------------------------------------------------------ *)
(** ** How [main] ends *)
(* ------------------------------------------------------------------ *)

Section MainOutcomes.

Variable world : Type.
Variable path_exists : world -> string -> bool.
Variable read_text : world -> string -> option string.
Variable write_text : world -> string -> string -> world * bool.

(** The run of [main] past the argument check, by what the file system
    answers. *)
Lemma main_cases (argv : list string) (w : world) :
  (List.length argv < 3
   /\ main path_exists read_text write_text argv w
      = mkRun (Exit 1) [USAGE +++ Py.nl] w)
  \/ exists markdown_file html_file,
      nth_error argv 1 = Some markdown_file
      /\ nth_error argv 2 = Some html_file
      /\ ((path_exists w markdown_file = false
           /\ main path_exists read_text write_text argv w
              = mkRun (Exit 1) [("Missing " +++ markdown_file) +++ Py.nl] w)
          \/ (path_exists w markdown_file = true
              /\ read_text w markdown_file = None
              /\ main path_exists read_text write_text argv w = mkRun Uncaught [] w)
          \/ (exists text converted_lines,
                path_exists w markdown_file = true
                /\ read_text w markdown_file = Some text
                /\ convert (Py.readlines text) = Some converted_lines
                /\ main path_exists read_text write_text argv w
                   = let '(w', ok) :=
                       write_text w html_file (Py.writelines converted_lines) in
                     mkRun (if ok then Exit 0 else Uncaught) [] w')).
Proof.
  destruct argv as [|prog [|markdown_file [|html_file rest]]];
    try (left; split; [simpl; lia | reflexivity]).
  right. exists markdown_file, html_file.
  split; [reflexivity | split; [reflexivity|]].
  unfold main. cbn [List.length Nat.ltb Nat.leb nth_error].
  destruct (path_exists w markdown_file) eqn:Ee; cbn [negb].
  - right. destruct (read_text w markdown_file) as [text|] eqn:Er.
    + right. exists text. cbv zeta. rewrite convert_total.
      eexists. repeat split.
      destruct (write_text w html_file _) as [w' [|]]; reflexivity.
    + left. repeat split.
  - left. split; reflexivity.
Qed.

End MainOutcomes.

(** [main] exits with status 0 only after it has read the source, converted
    its lines and written them to the destination; it has then printed
    nothing on the error stream, and the file system is the one the writing
    left. *)
Theorem main_succeeds_only_by_writing :
  forall (world : Type) (path_exists : world -> string -> bool)
         (read_text : world -> string -> option string)
         (write_text : world -> string -> string -> world * bool)
         (argv : list string) (w : world),
    run_end (main path_exists read_text write_text argv w) = Exit 0 ->
    exists markdown_file html_file text converted_lines,
      nth_error argv 1 = Some markdown_file
      /\ nth_error argv 2 = Some html_file
      /\ path_exists w markdown_file = true
      /\ read_text w markdown_file = Some text
      /\ convert (Py.readlines text) = Some converted_lines
      /\ write_text w html_file (Py.writelines converted_lines)
         = (run_world (main path_exists read_text write_text argv w), true)
      /\ run_stderr (main path_exists read_text write_text argv w) = [].
Proof.
  intros world pe rt wt argv w H.
  destruct (main_cases world pe rt wt argv w)
    as [[_ E] | [md [html [H1 [H2 [[_ E] | [[_ [_ E]] | [text [out [He [Hr [Hc E]]]]]]]]]]]];
    rewrite E in H |- *; try discriminate H.
  exists md, html, text, out.
  destruct (wt w html (Py.writelines out)) as [w' [|]]; [|discriminate H].
  repeat split; assumption.
Qed.

Lemma main_succeeds_only_by_writing_witness :
  exists markdown_file html_file text converted_lines,
    nth_error ["./markdown2html.py"; "README.md"; "README.html"] 1 = Some markdown_file
    /\ nth_error ["./markdown2html.py"; "README.md"; "README.html"] 2 = Some html_file
    /\ mem_exists [("README.md", "- a" +++ Py.nl)] markdown_file = true
    /\ mem_lookup [("README.md", "- a" +++ Py.nl)] markdown_file = Some text
    /\ convert (Py.readlines text) = Some converted_lines
    /\ mem_write [("README.md", "- a" +++ Py.nl)] html_file (Py.writelines converted_lines)
       = (run_world (mem_main ["./markdown2html.py"; "README.md"; "README.html"]
                              [("README.md", "- a" +++ Py.nl)]), true)
    /\ run_stderr (mem_main ["./markdown2html.py"; "README.md"; "README.html"]
                            [("README.md", "- a" +++ Py.nl)]) = [].
Proof.
  apply (main_succeeds_only_by_writing mem_fs mem_exists mem_lookup mem_write).
  reflexivity.
Defined.



(** [main] ends in an exception nobody catches only when the source exists
    and either cannot be read or the destination cannot be written: the
    conversion itself never raises. *)
Theorem main_crashes_only_on_io :
  forall (world : Type) (path_exists : world -> string -> bool)
         (read_text : world -> string -> option string)
         (write_text : world -> string -> string -> world * bool)
         (argv : list string) (w : world),
    run_end (main path_exists read_text write_text argv w) = Uncaught ->
    exists markdown_file html_file,
      nth_error argv 1 = Some markdown_file
      /\ nth_error argv 2 = Some html_file
      /\ path_exists w markdown_file = true
      /\ (read_text w markdown_file = None
          \/ exists text converted_lines,
              read_text w markdown_file = Some text
              /\ convert (Py.readlines text) = Some converted_lines
              /\ snd (write_text w html_file (Py.writelines converted_lines)) = false).
Proof.
  intros world pe rt wt argv w H.
  destruct (main_cases world pe rt wt argv w)
    as [[_ E] | [md [html [H1 [H2 [[_ E] | [[He [Hr E]] | [text [out [He [Hr [Hc E]]]]]]]]]]]];
    rewrite E in H; try discriminate H.
  - exists md, html. repeat split; try assumption. now left.
  - exists md, html. repeat split; try assumption. right.
    exists text, out. repeat split; try assumption.
    destruct (wt w html (Py.writelines out)) as [w' [|]]; [discriminate H | reflexivity].
Qed.

Lemma main_crashes_only_on_io_witness :
  exists markdown_file html_file,
    nth_error ["./markdown2html.py"; "README.md"; "README.html"] 1 = Some markdown_file
    /\ nth_error ["./markdown2html.py"; "README.md"; "README.html"] 2 = Some html_file
    /\ unreadable_exists tt markdown_file = true
    /\ (unreadable_read tt markdown_file = None
        \/ exists text converted_lines,
            unreadable_read tt markdown_file = Some text
            /\ convert (Py.readlines text) = Some converted_lines
            /\ snd (unreadable_write tt html_file (Py.writelines converted_lines))
               = false).
Proof.
  apply (main_crashes_only_on_io unit unreadable_exists unreadable_read unreadable_write).
  reflexivity.
Defined.

(* ------------------------------------------------------------------ *)
(** ** The output read back *)
(* ------------------------------------------------------------------ *)

Lemma append_nil_r (a : string) : a +++ EmptyString = a.
Proof. induction a as [|x a IH]; simpl; [reflexivity | now rewrite IH]. Qed.

Lemma terminated_cons (c d : ascii) (t : string) :
  terminated (String c (String d t))
  = negb (Ascii.eqb c Py.LF) && terminated (String d t).
Proof. reflexivity. Qed.

Lemma terminated_line_shaped (s : string) : terminated s = true -> line_shaped s = true.
Proof.
  unfold line_shaped. induction s as [|c s IH]; intros H; [discriminate|].
  destruct s as [|d t]; [reflexivity|].
  rewrite terminated_cons in H. apply andb_true_iff in H. destruct H as [Hc Ht].
  specialize (IH Ht). cbn [Py.truthy andb] in IH |- *.
  now rewrite lf_only_last_cons, Hc, IH.
Qed.

Lemma line_shaped_lf_only_last (s : string) :
  line_shaped s = true -> lf_only_last s = true.
Proof. unfold line_shaped. intros H. now apply andb_true_iff in H. Qed.

Lemma terminated_line (s : string) : no_lf s = true -> terminated (s +++ Py.nl) = true.
Proof.
  induction s as [|c s IH]; intros H; [reflexivity|].
  simpl in H. apply andb_true_iff in H. destruct H as [Hc Hs].
  specialize (IH Hs). simpl String.append.
  destruct (s +++ Py.nl) as [|d t] eqn:E; [discriminate IH|].
  rewrite terminated_cons, Hc. exact IH.
Qed.

Lemma readlines_terminated (l text : string) :
  terminated l = true -> Py.readlines (l +++ text) = l :: Py.readlines text.
Proof.
  induction l as [|c l IH]; intros H; [discriminate|].
  destruct l as [|d t].
  - cbn in H. apply Ascii.eqb_eq in H. subst c. reflexivity.
  - rewrite terminated_cons in H. apply andb_true_iff in H. destruct H as [Hc Ht].
    apply negb_true_iff in Hc.
    change (String c (String d t) +++ text) with (String c (String d t +++ text)).
    cbn [Py.readlines]. rewrite Hc, (IH Ht). reflexivity.
Qed.

Lemma readlines_cons (c : ascii) (rest : string) :
  Py.readlines (String c rest)
  = if Ascii.eqb c Py.LF then Py.nl :: Py.readlines rest
    else match Py.readlines rest with
         | [] => [String c EmptyString]
         | line :: lines => String c line :: lines
         end.
Proof. reflexivity. Qed.

Lemma readlines_line (l : string) : line_shaped l = true -> Py.readlines l = [l].
Proof.
  unfold line_shaped. induction l as [|c l IH]; intros H; [discriminate|].
  destruct l as [|d t].
  - cbn [Py.readlines]. destruct (Ascii.eqb c Py.LF) eqn:E; [|reflexivity].
    apply Ascii.eqb_eq in E. now subst c.
  - cbn [Py.truthy andb] in H. rewrite lf_only_last_cons in H.
    apply andb_true_iff in H. destruct H as [Hc Ht]. apply negb_true_iff in Hc.
    rewrite readlines_cons, Hc.
    rewrite IH by exact Ht. reflexivity.
Qed.

Lemma file_shaped_cons (x : string) (rest : list string) :
  terminated x = true -> file_shaped rest = true -> file_shaped (x :: rest) = true.
Proof.
  intros Hx Hr. destruct rest as [|y rest].
  - now apply terminated_line_shaped.
  - change (file_shaped (x :: y :: rest))
      with (terminated x && file_shaped (y :: rest)).
    now rewrite Hx, Hr.
Qed.

Lemma file_shaped_inv (l : string) (rest : list string) :
  file_shaped (l :: rest) = true ->
  line_shaped l = true /\ file_shaped rest = true
  /\ (rest <> [] -> terminated l = true).
Proof.
  destruct rest as [|y rest].
  - intros H. split; [exact H | split; [reflexivity | congruence]].
  - change (file_shaped (l :: y :: rest))
      with (terminated l && file_shaped (y :: rest)).
    intros H. apply andb_true_iff in H. destruct H as [Hl Hr].
    split; [now apply terminated_line_shaped | split; [exact Hr | now intros _]].
Qed.

Lemma file_shaped_prefix (pre rest : list string) :
  Forall (fun x => terminated x = true) pre ->
  file_shaped rest = true ->
  file_shaped (pre ++ rest) = true.
Proof.
  induction 1 as [|x pre Hx _ IH]; intros Hr; [exact Hr|].
  cbn [app]. apply file_shaped_cons; [exact Hx | now apply IH].
Qed.

(** A line passed on, before the output for the lines after it. *)
Lemma file_shaped_passed (l : string) (rest out : list string) :
  file_shaped (l :: rest) = true ->
  (rest = [] -> out = []) ->
  file_shaped out = true ->
  file_shaped (l :: out) = true.
Proof.
  intros H Hnil Hout. apply file_shaped_inv in H. destruct H as [Hl [_ Ht]].
  destruct rest as [|y rest].
  - now rewrite (Hnil eq_refl).
  - apply file_shaped_cons; [apply Ht; discriminate | exact Hout].
Qed.

Lemma readlines_writelines (lines : list string) :
  file_shaped lines = true -> Py.readlines (Py.writelines lines) = lines.
Proof.
  induction lines as [|l lines IH]; intros H; [reflexivity|].
  apply file_shaped_inv in H. destruct H as [Hl [Hr Ht]].
  cbn [Py.writelines]. destruct lines as [|y lines].
  - cbn [Py.writelines]. rewrite append_nil_r. now apply readlines_line.
  - rewrite readlines_terminated by (apply Ht; discriminate).
    now rewrite IH.
Qed.

Lemma readlines_file_shaped (text : string) : file_shaped (Py.readlines text) = true.
Proof.
  induction text as [|c text IH]; [reflexivity|].
  cbn [Py.readlines]. destruct (Ascii.eqb c Py.LF) eqn:E.
  - now apply file_shaped_cons.
  - destruct (Py.readlines text) as [|l lines]; [reflexivity|].
    apply file_shaped_inv in IH. destruct IH as [Hl [Hr Ht]].
    assert (exists d t, l = String d t) as [d [t ->]].
    { destruct l; [discriminate Hl | eauto]. }
    destruct lines as [|y lines].
    + change (line_shaped (String c (String d t)) = true).
      unfold line_shaped in *. cbn [Py.truthy andb] in Hl |- *.
      now rewrite lf_only_last_cons, E, Hl.
    + apply file_shaped_cons; [|exact Hr].
      rewrite terminated_cons, E. apply Ht. discriminate.
Qed.

Lemma terminated_li (x : string) : no_lf x = true -> terminated (li_tag x) = true.
Proof.
  intros H. unfold li_tag.
  replace ("   <li>" +++ x +++ "</li>" +++ Py.nl)
    with (("   <li>" +++ x +++ "</li>") +++ Py.nl)
    by (now rewrite !append_assoc).
  apply terminated_line. rewrite !no_lf_append, H. reflexivity.
Qed.

Lemma terminated_heading (i : nat) (line : string) :
  In i heading_levels ->
  lf_only_last line = true ->
  terminated (heading_tag i line) = true.
Proof.
  intros Hi H. unfold heading_tag.
  set (t := Py.strip (Py.slice_from (i + 1) line)).
  assert (no_lf t = true) as Ht
      by (apply no_lf_strip; now apply lf_only_last_slice).
  replace ("<h" +++ Py.str_of_int i +++ ">" +++ t
           +++ "</h" +++ Py.str_of_int i +++ ">" +++ Py.nl)
    with (("<h" +++ Py.str_of_int i +++ ">" +++ t
           +++ "</h" +++ Py.str_of_int i +++ ">") +++ Py.nl)
    by (now rewrite !append_assoc).
  apply terminated_line. rewrite !no_lf_append, Ht.
  unfold heading_levels in Hi. simpl in Hi.
  destruct Hi as [<-|[<-|[<-|[<-|[<-|[<-|[]]]]]]]; reflexivity.
Qed.

Lemma terminated_p_content (l : string) :
  lf_only_last l = true ->
  terminated (p_content l) = true /\ terminated (drop_br (p_content l)) = true.
Proof.
  intros H. pose proof (no_lf_strip l H) as Hs. unfold p_content. split.
  - unfold p_line, BR_NL.
    replace ("    " +++ Py.strip l +++ BR +++ Py.nl)
      with (("    " +++ Py.strip l +++ BR) +++ Py.nl)
      by (now rewrite !append_assoc).
    apply terminated_line. rewrite !no_lf_append, Hs. reflexivity.
  - rewrite closed_line_no_lf by exact Hs.
    replace ("    " +++ Py.strip l +++ Py.nl)
      with (("    " +++ Py.strip l) +++ Py.nl)
      by (now rewrite !append_assoc).
    apply terminated_line. rewrite !no_lf_append, Hs. reflexivity.
Qed.

Lemma heading_file_shaped (lines : list string) :
  file_shaped lines = true ->
  file_shaped (convert_markdown_heading_to_html lines) = true.
Proof.
  rewrite heading_map.
  induction lines as [|l lines IH]; intros H; [reflexivity|].
  apply file_shaped_inv in H. destruct H as [Hl [Hr Ht]].
  cbn [map].
  destruct (heading_loop_cases heading_levels l) as [[i [Hi [_ ->]]] | [_ ->]].
  - apply file_shaped_cons; [|now apply IH].
    apply terminated_heading; [exact Hi | now apply line_shaped_lf_only_last].
  - destruct lines as [|y lines]; [exact Hl|].
    apply file_shaped_cons; [apply Ht; discriminate | now apply IH].
Qed.

Lemma grouper_file_shaped (marker open_marker close_marker : string) :
  terminated open_marker = true ->
  terminated close_marker = true ->
  forall lines b,
    file_shaped lines = true ->
    file_shaped (list_grouper_from marker open_marker close_marker b lines) = true.
Proof.
  intros Ho Hc lines. induction lines as [|l lines IH]; intros b H.
  - destruct b; [now apply terminated_line_shaped | reflexivity].
  - pose proof (file_shaped_inv l lines H) as [Hl [Hr _]].
    cbn [list_grouper_from]. destruct (Py.startswith marker l).
    + apply file_shaped_prefix; [destruct b; repeat constructor; exact Ho|].
      apply file_shaped_cons; [|now apply IH].
      apply terminated_li, no_lf_strip, lf_only_last_slice.
      now apply line_shaped_lf_only_last.
    + apply file_shaped_prefix; [destruct b; repeat constructor; exact Hc|].
      apply (file_shaped_passed l lines); [exact H | now intros -> | now apply IH].
Qed.

Lemma para_file_shaped (lines : list string) :
  forall pending,
    match pending with
    | Some c => terminated c = true /\ terminated (drop_br c) = true
    | None => True
    end ->
    file_shaped lines = true ->
    file_shaped (para_from pending lines) = true.
Proof.
  induction lines as [|l lines IH]; intros pending Hp H.
  - destruct pending as [c|]; [|reflexivity].
    destruct Hp as [_ Hd]. now apply file_shaped_cons.
  - pose proof (file_shaped_inv l lines H) as [Hl [Hr _]].
    cbn [para_from]. destruct (is_plain l).
    + apply file_shaped_cons.
      * destruct pending as [c|]; [apply Hp | reflexivity].
      * apply IH; [|exact Hr].
        apply terminated_p_content. now apply line_shaped_lf_only_last.
    + apply file_shaped_prefix.
      * destruct pending as [c|]; [|constructor].
        destruct Hp as [_ Hd]. repeat constructor. exact Hd.
      * apply (file_shaped_passed l lines); [exact H | now intros -> | now apply IH].
Qed.

(** The lines the script writes are the lines of the text it writes:
    whatever the source text, every converted line ends in its one line
    feed, but possibly the last, and reading the written text back line by
    line gives the converted lines. *)
Theorem written_lines_read_back (text : string) (converted_lines : list string) :
  convert (Py.readlines text) = Some converted_lines ->
  file_shaped converted_lines = true
  /\ Py.readlines (Py.writelines converted_lines) = converted_lines.
Proof.
  intros H. rewrite convert_total in H. injection H as <-.
  assert (file_shaped
            (para_from None
               (convert_markdown_ol_list_to_html
                  (convert_markdown_ul_list_to_html
                     (convert_markdown_heading_to_html (Py.readlines text)))))
          = true) as Hs.
  { apply para_file_shaped; [exact I|].
    rewrite ol_grouper. apply grouper_file_shaped; try reflexivity.
    rewrite ul_grouper. apply grouper_file_shaped; try reflexivity.
    apply heading_file_shaped, readlines_file_shaped. }
  split; [exact Hs | now apply readlines_writelines].
Qed.

Lemma written_lines_read_back_witness :
  file_shaped ["<p>" +++ Py.nl; "    <h1>T</h1><br/>" +++ Py.nl; "    x" +++ Py.nl;
               "</p>" +++ Py.nl; "#y"] = true
  /\ Py.readlines
       (Py.writelines ["<p>" +++ Py.nl; "    <h1>T</h1><br/>" +++ Py.nl; "    x" +++ Py.nl;
                       "</p>" +++ Py.nl; "#y"])
     = ["<p>" +++ Py.nl; "    <h1>T</h1><br/>" +++ Py.nl; "    x" +++ Py.nl;
        "</p>" +++ Py.nl; "#y"].
Proof.
  apply (written_lines_read_back ("# T" +++ Py.nl +++ "x" +++ Py.nl +++ "#y")).
  reflexivity.
Defined.

(* ------------------------------------------------------------------ *)
(** ** Sizes *)
(* ------------------------------------------------------------------ *)



